(** * The [igraph.Graph] object of the Python interface (graphobject.c)

    A shallow embedding of the binding layer between the host interpreter and
    the native graph engine: the handle and its life cycle (creation, cyclic
    garbage collection, deallocation), the structural mutators, the selector
    based queries, the n-ary graph operators and the translation of native
    failures into host exceptions.

    The native engine ([igraph_*]) is an external library: the binding only
    sees its entry points, which are the fields of the class [NativeEngine]
    below.  Every binding function is a computation in a small state monad
    over the host state (pending exception, native error slot, allocator) that
    records the calls it makes in a log, so that statements about the order
    of calls are statements about that log. *)

From stdpp Require Import base gmap list strings.
From Stdlib Require Import ZArith Lia.

#[local] Open Scope Z_scope.
#[local] Set Warnings "-register-all".

(** ** Host objects *)

(** The attribute storage hung on [igraph_t.attr]: an array of three
    dictionaries, indexed by the [ATTRHASH_IDX_*] constants. *)
Record attr_hashes (O : Type) : Type := AttrHashes {
  hash_graph : O;
  hash_vertex : O;
  hash_edge : O
}.
Arguments AttrHashes {O} _ _ _.
Arguments hash_graph {O} _.
Arguments hash_vertex {O} _.
Arguments hash_edge {O} _.

(** [igraph_t]: the native graph structure.  The binding reads the vertex
    and edge counts and the directedness through [igraph_vcount],
    [igraph_ecount] and [igraph_is_directed], copies the structure as a whole
    ([result->g = g]) and reaches into [attr]; the adjacency representation
    is kept as the list of edges. *)
Record igraph_t (O : Type) : Type := Igraph {
  n : Z;
  directed : bool;
  edges : list (Z * Z);
  attr : option (attr_hashes O)
}.
Arguments Igraph {O} _ _ _ _.
Arguments n {O} _.
Arguments directed {O} _.
Arguments edges {O} _.
Arguments attr {O} _.

(** [igraphmodule_GraphObject]: the Python object wrapping an [igraph_t].
    A [None] field is a [NULL] pointer. *)
Record igraphmodule_GraphObject (O : Type) : Type := GraphObject {
  g : igraph_t O;
  destructor : option O;
  vseq : option O;
  eseq : option O;
  weakreflist : option O
}.
Arguments GraphObject {O} _ _ _ _ _.
Arguments g {O} _.
Arguments destructor {O} _.
Arguments vseq {O} _.
Arguments eseq {O} _.
Arguments weakreflist {O} _.

(** The host values the binding handles. *)
Inductive PyObject : Type :=
| Py_None
| Py_NotImplemented
| PyBool (b : bool)
| PyInt (i : Z)
| PyString (s : string)
| PyList (items : list PyObject)
| PyTuple (items : list PyObject)
| PyDict (d : gmap string PyObject)
| PyFunction (name : string)
| PyOpaque (tag : string)
| PyGraph (o : igraphmodule_GraphObject PyObject).

Abbreviation Graph := (igraphmodule_GraphObject PyObject).
Abbreviation igraph := (igraph_t PyObject).

Definition Py_True : PyObject := PyBool true.
Definition Py_False : PyObject := PyBool false.

(** [PyCallable_Check]; a [NULL] pointer is not callable. *)
Definition PyCallable_Check (o : option PyObject) : bool :=
  match o with
  | Some (PyFunction _) => true
  | _ => false
  end.

(** [PyObject_IsTrue] on the values above. *)
Definition PyObject_IsTrue (o : PyObject) : bool :=
  match o with
  | Py_None => false
  | PyBool b => b
  | PyInt i => negb (i =? 0)
  | PyString s => negb (String.eqb s EmptyString)
  | PyList l | PyTuple l => negb (Nat.eqb (length l) 0)
  | PyDict d => negb (Nat.eqb (size d) 0)
  | _ => true
  end.

(** [PyObject_GetIter]: the type [igraph.Graph] has neither [tp_iter] nor
    [tp_as_sequence], so a graph is not iterable; lists, tuples, strings and
    dictionaries are.  The result is the sequence of items the iterator
    yields. *)
Fixpoint chars (s : string) : list PyObject :=
  match s with
  | EmptyString => []
  | String c r => PyString (String c EmptyString) :: chars r
  end.

Definition PyObject_GetIter (o : PyObject) : option (list PyObject) :=
  match o with
  | PyList l | PyTuple l => Some l
  | PyString s => Some (chars s)
  | PyDict d => Some (PyString <$> (map_to_list d).*1)
  | _ => None
  end.

(** [PyDict_GetItem] with a string key; [None] is [NULL]. *)
Definition PyDict_GetItem (d : PyObject) (k : string) : option PyObject :=
  match d with
  | PyDict m => m !! k
  | _ => None
  end.

(** [PyObject_TypeCheck(o, &igraphmodule_GraphType)], giving the object. *)
Definition PyObject_TypeCheck_Graph (o : PyObject) : option Graph :=
  match o with
  | PyGraph h => Some h
  | _ => None
  end.

(** ** The native engine's view of a graph *)

Definition igraph_vcount (gr : igraph) : Z := n gr.
Definition igraph_ecount (gr : igraph) : Z := Z.of_nat (length (edges gr)).
Definition igraph_is_directed (gr : igraph) : bool := directed gr.

(** Status of a native call: [IGRAPH_SUCCESS] is the return value 0, anything
    else comes with the message the engine leaves in its error slot. *)
Inductive igraph_status : Type :=
| IGRAPH_SUCCESS
| IGRAPH_FAILURE (errno : Z) (msg : string).

Definition failed (st : igraph_status) : bool :=
  match st with
  | IGRAPH_SUCCESS => false
  | IGRAPH_FAILURE _ _ => true
  end.

(** A native call with an out-parameter: the value is there only when the
    call succeeded. *)
Inductive native (A : Type) : Type :=
| Done (a : A)
| Failed (errno : Z) (msg : string).
Arguments Done {A} _.
Arguments Failed {A} _ _.

Definition status_of {A} (r : native A) : igraph_status :=
  match r with
  | Done _ => IGRAPH_SUCCESS
  | Failed e m => IGRAPH_FAILURE e m
  end.

(** Vertex and edge selectors ([igraph_vs_t], [igraph_es_t]). *)
Inductive igraph_vs_t : Type :=
| igraph_vs_all
| igraph_vs_1 (vid : Z)
| igraph_vss_vector (v : list Z).

Inductive igraph_es_t : Type :=
| igraph_es_vector (v : list Z)
| igraph_es_pairs (v : list Z) (dir : bool).

Definition IGRAPH_OUT : Z := 1.
Definition IGRAPH_IN : Z := 2.
Definition IGRAPH_ALL : Z := 3.
Definition IGRAPH_DIRECTED : bool := true.
Definition IGRAPH_GET_ADJACENCY_UPPER : Z := 0.
Definition IGRAPH_GET_ADJACENCY_LOWER : Z := 1.
Definition IGRAPH_GET_ADJACENCY_BOTH : Z := 2.

(** ** Host state, call log and the monad of binding calls *)

Inductive PyExc : Type :=
| PyExc_AssertionError
| PyExc_ValueError
| PyExc_TypeError
| PyExc_OverflowError
| PyExc_MemoryError
| PyExc_KeyError
| igraphmodule_InternalError.

(** The native entry points the binding calls. *)
Inductive native_fn : Type :=
| fn_igraph_empty | fn_igraph_create
| fn_igraph_add_vertices | fn_igraph_delete_vertices
| fn_igraph_add_edges | fn_igraph_delete_edges
| fn_igraph_es_vector | fn_igraph_es_pairs
| fn_igraph_degree | fn_igraph_get_adjacency | fn_igraph_bfs
| fn_igraph_disjoint_union | fn_igraph_disjoint_union_many
| fn_igraph_union | fn_igraph_union_many
| fn_igraph_intersection | fn_igraph_intersection_many
| fn_igraph_vector_init | fn_igraph_matrix_init.

(** The destructors of native values. *)
Inductive cleanup_fn : Type :=
| fn_igraph_destroy
| fn_igraph_vector_destroy
| fn_igraph_vector_ptr_destroy
| fn_igraph_matrix_destroy
| fn_igraph_vs_destroy
| fn_igraph_es_destroy.

Inductive event : Type :=
| Native (f : native_fn) (args : list Z) (st : igraph_status)
| Cleanup (f : cleanup_fn)
| ErrorBridge
| PyErr_Set (exc : PyExc) (msg : string)
| PyErr_Cleared
| PyCall (callee : PyObject)
| Visit (o : PyObject)
| Py_Decref (o : PyObject)
| Py_Incref (o : PyObject)
| ClearWeakRefs
| GC_UnTrack
| GC_Del.

(** [py_err] is the pending host exception, [err_slot] the engine's single
    error slot, [alloc_ok] whether [tp_alloc] finds memory, [log] the calls
    made so far, oldest first. *)
Record host : Type := Host {
  py_err : option (PyExc * string);
  err_slot : option (Z * string);
  alloc_ok : bool;
  log : list event
}.

Definition M (A : Type) : Type := host → A * host.

Definition ret {A} (a : A) : M A := λ w, (a, w).
Definition bind {A B} (m : M A) (k : A → M B) : M B :=
  λ w, let '(a, w') := m w in k a w'.

Notation "'let*' x ':=' m 'in' k" := (bind m (λ x, k))
  (at level 10, x name, m at level 100, k at level 200).
Notation "m ';;;' k" := (bind m (λ _, k))
  (at level 100, k at level 200, right associativity).

Definition emit (e : event) : M unit :=
  λ w, (tt, Host (py_err w) (err_slot w) (alloc_ok w) (log w ++ [e])).

(** A native call: logged with its status; a failure fills the error slot. *)
Definition call_native (f : native_fn) (args : list Z) (st : igraph_status) : M igraph_status :=
  λ w, let slot := match st with
                   | IGRAPH_SUCCESS => err_slot w
                   | IGRAPH_FAILURE e m => Some (e, m)
                   end in
       (st, Host (py_err w) slot (alloc_ok w) (log w ++ [Native f args st])).

Definition cleanup (f : cleanup_fn) : M unit := emit (Cleanup f).

Definition PyErr_SetString (exc : PyExc) (msg : string) : M unit :=
  λ w, (tt, Host (Some (exc, msg)) (err_slot w) (alloc_ok w) (log w ++ [PyErr_Set exc msg])).

Definition PyErr_Clear : M unit :=
  λ w, (tt, Host None (err_slot w) (alloc_ok w) (log w ++ [PyErr_Cleared])).

(** Modelled from the spec: [igraphmodule_handle_igraph_error] (error.c is
    not among the sources).  The bridge reads the message held in the native
    error slot, clears the slot and raises a host error that carries the
    copied message; with nothing in the slot it raises a generic error,
    unless an exception is already pending. *)
Definition igraphmodule_handle_igraph_error : M unit :=
  λ w, let err := match err_slot w, py_err w with
                  | Some (_, m), _ => Some (igraphmodule_InternalError, m)
                  | None, Some e => Some e
                  | None, None => Some (igraphmodule_InternalError, "Internal igraph error"%string)
                  end in
       (tt, Host err None (alloc_ok w) (log w ++ [ErrorBridge])).

Definition host0 : host := Host None None true [].

(** ** Life cycle of the handle *)

Definition igraphmodule_Graph_init_internal (self : Graph) : Graph :=
  GraphObject (Igraph (n (g self)) (directed (g self)) (edges (g self)) None)
              None None None None.

Definition Py_XDECREF (o : option PyObject) : M unit :=
  match o with
  | Some x => emit (Py_Decref x)
  | None => ret tt
  end.

Definition igraphmodule_Graph_clear (self : Graph) : M (Z * Graph) :=
  emit GC_UnTrack ;;;
  let tmp := vseq self in
  let self := GraphObject (g self) (destructor self) None (eseq self) (weakreflist self) in
  Py_XDECREF tmp ;;;
  let tmp := eseq self in
  let self := GraphObject (g self) (destructor self) (vseq self) None (weakreflist self) in
  Py_XDECREF tmp ;;;
  let tmp := destructor self in
  let self := GraphObject (g self) None (vseq self) (eseq self) (weakreflist self) in
  Py_XDECREF tmp ;;;
  ret (0, self).

Definition ATTRHASH_IDX_GRAPH : nat := 0.
Definition ATTRHASH_IDX_VERTEX : nat := 1.
Definition ATTRHASH_IDX_EDGE : nat := 2.

(** [((PyObject** )attr)[i]] *)
Definition attrhash (a : attr_hashes PyObject) (i : nat) : PyObject :=
  match i with
  | O => hash_graph a
  | S O => hash_vertex a
  | _ => hash_edge a
  end.

Section Traverse.
(** The collector's [visitproc]; its [void *arg] is closed over. *)
Variable visit : PyObject → Z.

Definition call_visit (o : PyObject) : M Z :=
emit (Visit o) ;;; ret (visit o).

(** [for (i = ...; i < 3; i++) { vret = visit(attr[i]); if (vret != 0) return vret; }] *)
Fixpoint traverse_hashes (a : attr_hashes PyObject) (idx : list nat) : M Z :=
match idx with
| [] => ret 0
| i :: rest =>
    let* vret := call_visit (attrhash a i) in
    if negb (vret =? 0) then ret vret else traverse_hashes a rest
end.

Definition igraphmodule_Graph_traverse (self : Graph) : M Z :=
let* vret := match destructor self with
             | Some d => call_visit d
             | None => ret 0
             end in
if negb (vret =? 0) then ret vret else
match attr (g self) with
| Some a => traverse_hashes a (seq 0 3)
| None => ret 0
end.
End Traverse.

(** [tp_dealloc].  What the finalizer returns is dropped as soon as the
    call is back ([if (r) Py_DECREF(r)]); that object was never held by the
    handle and its release is not logged. *)
Definition igraphmodule_Graph_dealloc (self : Graph) : M Graph :=
  (match weakreflist self with
   | Some _ => emit ClearWeakRefs
   | None => ret tt
   end) ;;;
  cleanup fn_igraph_destroy ;;;
  (if PyCallable_Check (destructor self)
   then match destructor self with
        | Some d => emit (PyCall d)
        | None => ret tt
        end
   else ret tt) ;;;
  let* r := igraphmodule_Graph_clear self in
  emit GC_Del ;;;
  ret r.2.

(** [__register_destructor]: stores a callable, handing back the previous
    one (or [None]). *)
Definition igraphmodule_Graph___register_destructor__ (self : Graph) (args : list PyObject)
  : M (option PyObject * Graph) :=
  match args with
  | [d] =>
      if negb (PyCallable_Check (Some d)) then
        PyErr_SetString PyExc_TypeError "The destructor must be callable!" ;;;
        ret (None, self)
      else
        let result := destructor self in
        let self := GraphObject (g self) (Some d) (vseq self) (eseq self) (weakreflist self) in
        emit (Py_Incref d) ;;;
        match result with
        | None => ret (Some Py_None, self)
        | Some r => ret (Some r, self)
        end
  | _ =>
      PyErr_SetString PyExc_TypeError "function takes exactly 1 argument" ;;;
      ret (None, self)
  end.

(** ** Argument parsing *)

Definition LONG_MIN : Z := - 2 ^ 63.
Definition LONG_MAX : Z := 2 ^ 63 - 1.
Definition INT_MIN : Z := - 2 ^ 31.
Definition INT_MAX : Z := 2 ^ 31 - 1.

(** One integer argument of [PyArg_ParseTuple], for the format units [l]
    ([lo = LONG_MIN], [hi = LONG_MAX]) and [i]. *)
Definition parse_integer (lo hi : Z) (o : PyObject) : M (option Z) :=
  match o with
  | PyInt i =>
      if (lo <=? i) && (i <=? hi) then ret (Some i)
      else PyErr_SetString PyExc_OverflowError "integer too large to convert" ;;; ret None
  | PyBool b => ret (Some (if b then 1 else 0))
  | _ => PyErr_SetString PyExc_TypeError "an integer is required" ;;; ret None
  end.

Definition parse_l : PyObject → M (option Z) := parse_integer LONG_MIN LONG_MAX.
Definition parse_i : PyObject → M (option Z) := parse_integer INT_MIN INT_MAX.

Definition bad_arity {A} : M (option A) :=
  PyErr_SetString PyExc_TypeError "wrong number of arguments" ;;; ret None.

(** ** Conversions between host values and native buffers *)

Definition as_int (o : PyObject) : option Z :=
  match o with
  | PyInt i => Some i
  | _ => None
  end.

Definition as_pair (o : PyObject) : option (list Z) :=
  match o with
  | PyTuple [PyInt a; PyInt b] => Some [a; b]
  | _ => None
  end.

(** Modelled from the spec: [igraphmodule_PyList_to_vector_t] (convert.c is
    not among the sources).  An ordered host sequence of integers becomes a
    flat buffer; with [pairs] the items are pairs and the buffer alternates
    their two ends.  An item of another shape, or a negative number where
    [need_non_negative] is set, is a conversion error raised before any
    native call; no partial buffer is produced. *)
Definition igraphmodule_PyList_to_vector_t
    (lst : PyObject) (need_non_negative pairs : bool) : M (option (list Z)) :=
  let items := match lst with
               | PyList l =>
                   if pairs then (λ ps, List.concat ps) <$> mapM as_pair l else mapM as_int l
               | _ => None
               end in
  match items with
  | None =>
      PyErr_SetString PyExc_TypeError "List elements must be integers or pairs of integers" ;;;
      ret None
  | Some v =>
      if need_non_negative && negb (forallb (λ x, 0 <=? x) v) then
        PyErr_SetString PyExc_ValueError "List elements must be non-negative" ;;;
        ret None
      else ret (Some v)
  end.

(** Modelled from the spec: [igraphmodule_PyObject_to_vs_t] (convert.c).
    [None] selects all vertices, a single index selects that vertex and sets
    [return_single], a collection of indices selects them in order. *)
Definition igraphmodule_PyObject_to_vs_t (o : PyObject) : M (option (igraph_vs_t * bool)) :=
  match o with
  | Py_None => ret (Some (igraph_vs_all, false))
  | PyInt i => ret (Some (igraph_vs_1 i, true))
  | PyList l =>
      match mapM as_int l with
      | Some v => ret (Some (igraph_vss_vector v, false))
      | None => PyErr_SetString PyExc_TypeError "vertex IDs must be integers" ;;; ret None
      end
  | _ => PyErr_SetString PyExc_TypeError "integer, list of integers or None expected" ;;; ret None
  end.

(** Modelled from the spec: [igraphmodule_vector_t_to_PyList] and its
    variants (convert.c): a flat buffer back to a host list, a matrix to
    nested lists row by row, a triple of buffers to a tuple. *)
Definition igraphmodule_vector_t_to_PyList (v : list Z) : PyObject :=
  PyList (PyInt <$> v).

Definition igraphmodule_matrix_t_to_PyList (m : list (list Z)) : PyObject :=
  PyList (igraphmodule_vector_t_to_PyList <$> m).

(** Modelled from the spec: [igraphmodule_PyIter_to_vector_ptr_t]
    (convert.c): the items of an iterable, each of which has to be a graph,
    as a vector of pointers to their native structures. *)
Definition igraphmodule_PyIter_to_vector_ptr_t (it : list PyObject) : M (option (list igraph)) :=
  match mapM PyObject_TypeCheck_Graph it with
  | Some hs => ret (Some (g <$> hs))
  | None => PyErr_SetString PyExc_TypeError "iterable argument must contain graphs" ;;; ret None
  end.

(** ** The native engine *)

Class NativeEngine : Type := {
  igraph_empty : Z → bool → native igraph;
  igraph_create : list Z → Z → bool → native igraph;
  igraph_add_vertices : igraph → Z → igraph_status * igraph;
  igraph_delete_vertices : igraph → igraph_vs_t → igraph_status * igraph;
  igraph_add_edges : igraph → list Z → igraph_status * igraph;
  igraph_delete_edges : igraph → igraph_es_t → igraph_status * igraph;
  igraph_es_vector_init : list Z → native igraph_es_t;
  igraph_es_pairs_init : list Z → bool → native igraph_es_t;
  igraph_degree : igraph → igraph_vs_t → Z → bool → native (list Z);
  igraph_get_adjacency : igraph → Z → native (list (list Z));
  igraph_bfs : igraph → Z → Z → native (list Z * list Z * list Z);
  igraph_disjoint_union : igraph → igraph → native igraph;
  igraph_disjoint_union_many : list igraph → native igraph;
  igraph_union : igraph → igraph → native igraph;
  igraph_union_many : list igraph → native igraph;
  igraph_intersection : igraph → igraph → native igraph;
  igraph_intersection_many : list igraph → native igraph;
  igraph_vector_init : Z → igraph_status;
  igraph_matrix_init : Z → Z → igraph_status
}.

Definition set_g (self : Graph) (g' : igraph) : Graph :=
  GraphObject g' (destructor self) (vseq self) (eseq self) (weakreflist self).

(** [PyErr_NoMemory]: [MemoryError] with no message. *)
Definition PyErr_NoMemory : M unit := PyErr_SetString PyExc_MemoryError EmptyString.

(** [tp_alloc]: the slot of the type is 0, which the host fills with its
    generic allocator: a zero-filled object, or [NULL] with [MemoryError]
    raised when the host is out of memory. *)
Definition blank : Graph :=
  GraphObject (Igraph 0 false [] None) None None None None.

Definition tp_alloc : M (option Graph) :=
  λ w, if alloc_ok w then (Some blank, w) else (PyErr_NoMemory ;;; ret None) w.

Definition igraphmodule_Graph_new : M (option Graph) :=
  let* self := tp_alloc in
  ret (igraphmodule_Graph_init_internal <$> self).

(** [result = tp_alloc(...); if (result != NULL) { init_internal(result);
    result->g = g; } return result;]  The allocator is the one of the type
    of the receiver, whose type the new object gets; types are not part of
    the model, in which every handle is a [Graph]. *)
Definition wrap_result (gr : igraph) : M (option PyObject) :=
  let* result := tp_alloc in
  match result with
  | Some r => ret (Some (PyGraph (set_g (igraphmodule_Graph_init_internal r) gr)))
  | None => ret None
  end.

(** A native call through an out-parameter. *)
Definition call_out {A} (f : native_fn) (args : list Z) (r : native A) : M (native A) :=
  call_native f args (status_of r) ;;; ret r.

(** ** The methods of [igraph.Graph] *)

Section Binding.
Context {E : NativeEngine}.

(** [tp_init], format [|iO!O!]: [n] defaults to 1, [edges] has to be a
  list and [directed] a boolean.  The arguments are the positional ones:
  a call that names its arguments by keyword is not modelled. *)
Definition parse_init_args (args : list PyObject) : M (option (Z * option PyObject * PyObject)) :=
match args with
| [] => ret (Some (1, None, Py_False))
| [a] => let* nv := parse_i a in ret ((λ x, (x, None, Py_False)) <$> nv)
| [a; PyList l] => let* nv := parse_i a in ret ((λ x, (x, Some (PyList l), Py_False)) <$> nv)
| [a; PyList l; PyBool d] =>
    let* nv := parse_i a in ret ((λ x, (x, Some (PyList l), PyBool d)) <$> nv)
| _ => bad_arity
end.

Definition is_Py_True (o : PyObject) : bool :=
match o with
| PyBool true => true
| _ => false
end.

Definition igraphmodule_Graph_init (self : Graph) (args : list PyObject) : M (Z * Graph) :=
let* a := parse_init_args args in
match a with
| None => ret (-1, self)
| Some (nv, Some edges_, dir) =>
    let* v := igraphmodule_PyList_to_vector_t edges_ true true in
    match v with
    | None => igraphmodule_handle_igraph_error ;;; ret (-1, self)
    | Some edges_vector =>
        let* r := call_out fn_igraph_create [nv] (igraph_create edges_vector nv (is_Py_True dir)) in
        match r with
        | Failed _ _ => igraphmodule_handle_igraph_error ;;; ret (-1, self)
        | Done g' => cleanup fn_igraph_vector_destroy ;;; ret (0, set_g self g')
        end
    end
| Some (nv, None, dir) =>
    let* r := call_out fn_igraph_empty [nv] (igraph_empty nv (is_Py_True dir)) in
    match r with
    | Failed _ _ => igraphmodule_handle_igraph_error ;;; ret (-1, self)
    | Done g' => ret (0, set_g self g')
    end
end.

Definition igraphmodule_Graph_vcount (self : Graph) : PyObject :=
PyInt (igraph_vcount (g self)).

Definition igraphmodule_Graph_ecount (self : Graph) : PyObject :=
PyInt (igraph_ecount (g self)).

(** A mutator that gives the handle back: [Py_INCREF(self); return self]. *)
Definition return_self (self : Graph) : M (option PyObject * Graph) :=
emit (Py_Incref (PyGraph self)) ;;; ret (Some (PyGraph self), self).

Definition igraphmodule_Graph_add_vertices (self : Graph) (args : list PyObject)
: M (option PyObject * Graph) :=
let* p := match args with
          | [a] => parse_l a
          | _ => bad_arity
          end in
match p with
| None => ret (None, self)
| Some nv =>
    if nv <? 0 then
      PyErr_SetString PyExc_AssertionError
        "Number of vertices to be added can't be negative." ;;;
      ret (None, self)
    else
      let r := igraph_add_vertices (g self) nv in
      let* st := call_native fn_igraph_add_vertices [nv] r.1 in
      let self := set_g self r.2 in
      if failed st then igraphmodule_handle_igraph_error ;;; ret (None, self)
      else return_self self
end.

Definition igraphmodule_Graph_delete_vertices (self : Graph) (args : list PyObject)
: M (option PyObject * Graph) :=
match args with
| [lst] =>
    let* v := igraphmodule_PyList_to_vector_t lst true false in
    match v with
    | None => ret (None, self)
    | Some v =>
        let r := igraph_delete_vertices (g self) (igraph_vss_vector v) in
        let* st := call_native fn_igraph_delete_vertices v r.1 in
        let self := set_g self r.2 in
        if failed st then
          igraphmodule_handle_igraph_error ;;;
          cleanup fn_igraph_vector_destroy ;;;
          ret (None, self)
        else
          cleanup fn_igraph_vector_destroy ;;;
          return_self self
    end
| _ => let* _ := @bad_arity unit in ret (None, self)
end.

Definition igraphmodule_Graph_add_edges (self : Graph) (args : list PyObject)
: M (option PyObject * Graph) :=
match args with
| [lst] =>
    emit (Py_Incref lst) ;;;
    let* v := igraphmodule_PyList_to_vector_t lst true true in
    match v with
    | None => emit (Py_Decref lst) ;;; ret (None, self)
    | Some v =>
        let r := igraph_add_edges (g self) v in
        let* st := call_native fn_igraph_add_edges v r.1 in
        let self := set_g self r.2 in
        if failed st then
          igraphmodule_handle_igraph_error ;;;
          emit (Py_Decref lst) ;;;
          cleanup fn_igraph_vector_destroy ;;;
          ret (None, self)
        else
          emit (Py_Decref lst) ;;;
          emit (Py_Incref (PyGraph self)) ;;;
          cleanup fn_igraph_vector_destroy ;;;
          ret (Some (PyGraph self), self)
    end
| _ => let* _ := @bad_arity unit in ret (None, self)
end.

(** Format [O|O]: [edges] and [by_index], which defaults to [False]. *)
Definition igraphmodule_Graph_delete_edges (self : Graph) (args : list PyObject)
: M (option PyObject * Graph) :=
let parsed := match args with
              | [lst] => Some (lst, Py_False)
              | [lst; by_index] => Some (lst, by_index)
              | _ => None
              end in
match parsed with
| None => let* _ := @bad_arity unit in ret (None, self)
| Some (lst, by_index) =>
    let* sel :=
      if PyObject_IsTrue by_index then
        let* v := igraphmodule_PyList_to_vector_t lst true false in
        match v with
        | None => ret None
        | Some v =>
            let* es := call_out fn_igraph_es_vector v (igraph_es_vector_init v) in
            match es with
            | Failed _ _ =>
                igraphmodule_handle_igraph_error ;;;
                cleanup fn_igraph_vector_destroy ;;;
                ret None
            | Done es => ret (Some es)
            end
        end
      else
        let* v := igraphmodule_PyList_to_vector_t lst true true in
        match v with
        | None => ret None
        | Some v =>
            let* es := call_out fn_igraph_es_pairs v (igraph_es_pairs_init v IGRAPH_DIRECTED) in
            match es with
            | Failed _ _ =>
                igraphmodule_handle_igraph_error ;;;
                cleanup fn_igraph_vector_destroy ;;;
                ret None
            | Done es => ret (Some es)
            end
        end in
    match sel with
    | None => ret (None, self)
    | Some es =>
        let r := igraph_delete_edges (g self) es in
        let* st := call_native fn_igraph_delete_edges [] r.1 in
        let self := set_g self r.2 in
        if failed st then
          igraphmodule_handle_igraph_error ;;;
          cleanup fn_igraph_es_destroy ;;;
          cleanup fn_igraph_vector_destroy ;;;
          ret (None, self)
        else
          emit (Py_Incref (PyGraph self)) ;;;
          cleanup fn_igraph_es_destroy ;;;
          cleanup fn_igraph_vector_destroy ;;;
          ret (Some (PyGraph self), self)
    end
end.
End Binding.

Section Queries.
Context {E : NativeEngine}.

(** Format [|OiO]: [vertices = None], [type = ALL], [loops = False]. *)
Definition parse_degree_args (args : list PyObject) : M (option (PyObject * Z * PyObject)) :=
match args with
| [] => ret (Some (Py_None, IGRAPH_ALL, Py_False))
| [lst] => ret (Some (lst, IGRAPH_ALL, Py_False))
| [lst; d] => let* dt := parse_i d in ret ((λ x, (lst, x, Py_False)) <$> dt)
| [lst; d; loops] => let* dt := parse_i d in ret ((λ x, (lst, x, loops)) <$> dt)
| _ => bad_arity
end.

(** [VECTOR(result)[0]] *)
Definition VECTOR_0 (v : list Z) : Z := default 0 (head v).

Definition igraphmodule_Graph_degree (self : Graph) (args : list PyObject) : M (option PyObject) :=
let* a := parse_degree_args args in
match a with
| None => ret None
| Some (lst, dtype, loops) =>
    if negb (dtype =? IGRAPH_ALL) && negb (dtype =? IGRAPH_OUT) && negb (dtype =? IGRAPH_IN) then
      PyErr_SetString PyExc_ValueError "dtype should be either ALL or IN or OUT" ;;;
      ret None
    else
      let* sel := igraphmodule_PyObject_to_vs_t lst in
      match sel with
      | None => igraphmodule_handle_igraph_error ;;; ret None
      | Some (vs, return_single) =>
          let* st := call_native fn_igraph_vector_init [0] (igraph_vector_init 0) in
          if failed st then cleanup fn_igraph_vs_destroy ;;; ret None
          else
            let* r := call_out fn_igraph_degree [dtype]
                        (igraph_degree (g self) vs dtype (PyObject_IsTrue loops)) in
            match r with
            | Failed _ _ =>
                igraphmodule_handle_igraph_error ;;;
                cleanup fn_igraph_vs_destroy ;;;
                cleanup fn_igraph_vector_destroy ;;;
                ret None
            | Done result =>
                let lst := if negb return_single
                           then igraphmodule_vector_t_to_PyList result
                           else PyInt (VECTOR_0 result) in
                cleanup fn_igraph_vector_destroy ;;;
                cleanup fn_igraph_vs_destroy ;;;
                ret (Some lst)
            end
      end
end.

(** Format [|i]: [type = GET_ADJACENCY_BOTH]. *)
Definition igraphmodule_Graph_get_adjacency (self : Graph) (args : list PyObject)
: M (option PyObject) :=
let* a := match args with
          | [] => ret (Some IGRAPH_GET_ADJACENCY_BOTH)
          | [t] => parse_i t
          | _ => bad_arity
          end in
match a with
| None => ret None
| Some t =>
    if negb (t =? IGRAPH_GET_ADJACENCY_UPPER) && negb (t =? IGRAPH_GET_ADJACENCY_LOWER)
       && negb (t =? IGRAPH_GET_ADJACENCY_BOTH) then
      PyErr_SetString PyExc_ValueError
        "type must be either GET_ADJACENCY_LOWER or GET_ADJACENCY_UPPER or GET_ADJACENCY_BOTH" ;;;
      ret None
    else
      let nv := igraph_vcount (g self) in
      let* st := call_native fn_igraph_matrix_init [nv; nv] (igraph_matrix_init nv nv) in
      if failed st then igraphmodule_handle_igraph_error ;;; ret None
      else
        let* r := call_out fn_igraph_get_adjacency [t] (igraph_get_adjacency (g self) t) in
        match r with
        | Failed _ _ =>
            igraphmodule_handle_igraph_error ;;;
            cleanup fn_igraph_matrix_destroy ;;;
            ret None
        | Done m =>
            let result := igraphmodule_matrix_t_to_PyList m in
            cleanup fn_igraph_matrix_destroy ;;;
            ret (Some result)
        end
end.

(** [if (igraph_vector_init(&v, vcount)) PyErr_SetString(MemoryError, ...);]
  without a return: the call goes on. *)
Definition bfs_vector_init (nv : Z) : M unit :=
let* st := call_native fn_igraph_vector_init [nv] (igraph_vector_init nv) in
if failed st then PyErr_SetString PyExc_MemoryError "not enough memory" else ret tt.

(** [long vid] is handed to the format unit [i], which stores an [int]:
  of the 64 bits of the [long] (the width [LONG_MIN] has here) only the
  32 low ones are written, the low bytes coming first in memory, and the
  32 high ones keep what the stack held before the call.  [slot] is that
  earlier content of the variable; the value read back is the signed
  64-bit number made of both halves. *)
Definition int_into_long (slot parsed : Z) : Z :=
let bits := Z.lor (Z.shiftl (Z.shiftr (slot mod 2 ^ 64) 32) 32) (parsed mod 2 ^ 32) in
if bits <? 2 ^ 63 then bits else bits - 2 ^ 64.

(** Format [i|i]: [vid], declared [long] and never initialised, and
  [mode = OUT]; [slot] is what the stack held where [vid] lies. *)
Definition igraphmodule_Graph_bfs (self : Graph) (slot : Z) (args : list PyObject) : M (option PyObject) :=
let* a := match args with
          | [v] => let* vid := parse_i v in ret ((λ x, (int_into_long slot x, IGRAPH_OUT)) <$> vid)
          | [v; m] =>
              let* vid := parse_i v in
              match vid with
              | None => ret None
              | Some vid => let* mode := parse_i m in ret ((λ x, (int_into_long slot vid, x)) <$> mode)
              end
          | _ => bad_arity
          end in
match a with
| None => ret None
| Some (vid, mode) =>
    if (vid <? 0) || (igraph_vcount (g self) <? vid) then
      PyErr_SetString PyExc_ValueError "invalid vertex id" ;;;
      ret None
    else
      bfs_vector_init (igraph_vcount (g self)) ;;;
      bfs_vector_init (igraph_vcount (g self)) ;;;
      bfs_vector_init (igraph_vcount (g self)) ;;;
      let* r := call_out fn_igraph_bfs [vid; mode] (igraph_bfs (g self) vid mode) in
      match r with
      | Failed _ _ => igraphmodule_handle_igraph_error ;;; ret None
      | Done (vids, layers, parents) =>
          let l1 := igraphmodule_vector_t_to_PyList vids in
          let l2 := igraphmodule_vector_t_to_PyList layers in
          let l3 := igraphmodule_vector_t_to_PyList parents in
          let result := PyTuple [l1; l2; l3] in
          cleanup fn_igraph_vector_destroy ;;;
          cleanup fn_igraph_vector_destroy ;;;
          cleanup fn_igraph_vector_destroy ;;;
          ret (Some result)
      end
end.
End Queries.

Section Operators.
Context {E : NativeEngine}.

(** [disjoint_union], [union] and [intersection] are the same text up to
  the pair of native functions they call: the one for two graphs and
  the [_many] one for a vector of graphs. *)
Definition graph_operator
  (f2 : native_fn) (op2 : igraph → igraph → native igraph)
  (fmany : native_fn) (opmany : list igraph → native igraph)
  (self : Graph) (other : PyObject) : M (option PyObject) :=
match PyObject_GetIter other with
| Some it =>
    let* gs := igraphmodule_PyIter_to_vector_ptr_t it in
    match gs with
    | None => ret None
    | Some gs =>
        let* r := call_out fmany [] (opmany gs) in
        match r with
        | Failed _ _ =>
            cleanup fn_igraph_vector_ptr_destroy ;;;
            igraphmodule_handle_igraph_error ;;;
            ret None
        | Done gr =>
            cleanup fn_igraph_vector_ptr_destroy ;;;
            wrap_result gr
        end
    end
| None =>
    PyErr_Clear ;;;
    match PyObject_TypeCheck_Graph other with
    | None => ret (Some Py_NotImplemented)
    | Some o =>
        let* r := call_out f2 [] (op2 (g self) (g o)) in
        match r with
        | Failed _ _ => igraphmodule_handle_igraph_error ;;; ret None
        | Done gr => wrap_result gr
        end
    end
end.

Definition igraphmodule_Graph_disjoint_union : Graph → PyObject → M (option PyObject) :=
graph_operator fn_igraph_disjoint_union igraph_disjoint_union
               fn_igraph_disjoint_union_many igraph_disjoint_union_many.

Definition igraphmodule_Graph_union : Graph → PyObject → M (option PyObject) :=
graph_operator fn_igraph_union igraph_union
               fn_igraph_union_many igraph_union_many.

Definition igraphmodule_Graph_intersection : Graph → PyObject → M (option PyObject) :=
graph_operator fn_igraph_intersection igraph_intersection
               fn_igraph_intersection_many igraph_intersection_many.
End Operators.

(** ** The attribute store *)

(** Modelled from the spec: the attribute handler that the engine calls
    back when the structure of a graph changes (attributes.c is not among
    the sources).  A new graph gets three empty dictionaries; adding [k]
    vertices or edges extends every array of that scope by [k] absent
    ([None]) entries; after a deletion the arrays follow the renumbering the
    engine hands over, [idx] being the old index of each surviving element,
    in the new order. *)
Definition empty_hashes : attr_hashes PyObject :=
  AttrHashes (PyDict ∅) (PyDict ∅) (PyDict ∅).

Definition map_dict (f : PyObject → PyObject) (d : PyObject) : PyObject :=
  match d with
  | PyDict m => PyDict (f <$> m)
  | x => x
  end.

Definition extend_array (k : nat) (v : PyObject) : PyObject :=
  match v with
  | PyList l => PyList (l ++ replicate k Py_None)
  | x => x
  end.

Definition permute_array (idx : list nat) (v : PyObject) : PyObject :=
  match v with
  | PyList l => PyList ((λ i, default Py_None (l !! i)) <$> idx)
  | x => x
  end.

Definition attribute_add_vertices (k : nat) (a : attr_hashes PyObject) : attr_hashes PyObject :=
  AttrHashes (hash_graph a) (map_dict (extend_array k) (hash_vertex a)) (hash_edge a).

Definition attribute_add_edges (k : nat) (a : attr_hashes PyObject) : attr_hashes PyObject :=
  AttrHashes (hash_graph a) (hash_vertex a) (map_dict (extend_array k) (hash_edge a)).

Definition attribute_delete_vertices (vidx eidx : list nat) (a : attr_hashes PyObject)
  : attr_hashes PyObject :=
  AttrHashes (hash_graph a) (map_dict (permute_array vidx) (hash_vertex a))
             (map_dict (permute_array eidx) (hash_edge a)).

Definition attribute_delete_edges (eidx : list nat) (a : attr_hashes PyObject)
  : attr_hashes PyObject :=
  AttrHashes (hash_graph a) (hash_vertex a) (map_dict (permute_array eidx) (hash_edge a)).

(** The value is an array of [len] entries. *)
Definition array_of_length (len : Z) (v : PyObject) : Prop :=
  match v with
  | PyList l => Z.of_nat (length l) = len
  | _ => False
  end.

(** The object is a dictionary all of whose values are arrays of [len]
    entries. *)
Definition arrays_of_length (len : Z) (d : PyObject) : Prop :=
  match d with
  | PyDict m => map_Forall (λ _ v, array_of_length len v) m
  | _ => False
  end.

(** Vertex arrays are as long as the vertex count, edge arrays as long as
    the edge count. *)
Definition attr_aligned (gr : igraph) : Prop :=
  match attr gr with
  | Some a => arrays_of_length (igraph_vcount gr) (hash_vertex a)
              ∧ arrays_of_length (igraph_ecount gr) (hash_edge a)
  | None => True
  end.

(** Modelled from the spec: [set(key, value)] and [delete(key)] of the
    vertex and of the edge scope (the sequence objects that carry them are
    not among the sources).  A value of the vertex (edge) scope is an array
    with one entry per vertex (edge): an array of another length is
    refused, as is the deletion of a key the scope does not have, and the
    store then stays as it was. *)
Definition set_array (len : Z) (key : string) (values : list PyObject) (d : PyObject)
  : option PyObject :=
  match d with
  | PyDict m =>
      if Z.of_nat (length values) =? len then Some (PyDict (<[key := PyList values]> m))
      else None
  | _ => None
  end.

Definition delete_array (key : string) (d : PyObject) : option PyObject :=
  match d with
  | PyDict m => if m !! key is Some _ then Some (PyDict (delete key m)) else None
  | _ => None
  end.

Definition with_vertex_hash (self : Graph) (f : PyObject → option PyObject) : option Graph :=
  match attr (g self) with
  | Some a =>
      match f (hash_vertex a) with
      | Some d =>
          Some (set_g self (Igraph (n (g self)) (directed (g self)) (edges (g self))
                              (Some (AttrHashes (hash_graph a) d (hash_edge a)))))
      | None => None
      end
  | None => None
  end.

Definition with_edge_hash (self : Graph) (f : PyObject → option PyObject) : option Graph :=
  match attr (g self) with
  | Some a =>
      match f (hash_edge a) with
      | Some d =>
          Some (set_g self (Igraph (n (g self)) (directed (g self)) (edges (g self))
                              (Some (AttrHashes (hash_graph a) (hash_vertex a) d))))
      | None => None
      end
  | None => None
  end.

Definition set_vertex_attribute (self : Graph) (key : string) (values : list PyObject)
  : option Graph :=
  with_vertex_hash self (set_array (igraph_vcount (g self)) key values).

Definition delete_vertex_attribute (self : Graph) (key : string) : option Graph :=
  with_vertex_hash self (delete_array key).

Definition set_edge_attribute (self : Graph) (key : string) (values : list PyObject)
  : option Graph :=
  with_edge_hash self (set_array (igraph_ecount (g self)) key values).

Definition delete_edge_attribute (self : Graph) (key : string) : option Graph :=
  with_edge_hash self (delete_array key).

(** ** What the binding expects of the engine *)

(** Structural calls: a new graph has an empty attribute store; a successful
    mutation changes the counts and calls the attribute handler with the same
    numbers; a failed mutation leaves the graph as it was. *)
Class StructuralContract (E : NativeEngine) : Prop := {
  empty_new : ∀ nv d gr, igraph_empty nv d = Done gr → attr gr = Some empty_hashes;
  create_new : ∀ v nv d gr, igraph_create v nv d = Done gr → attr gr = Some empty_hashes;
  add_vertices_done : ∀ gr nv gr', 0 ≤ nv →
    igraph_add_vertices gr nv = (IGRAPH_SUCCESS, gr') →
    n gr' = n gr + nv ∧ edges gr' = edges gr
    ∧ attr gr' = attribute_add_vertices (Z.to_nat nv) <$> attr gr;
  add_edges_done : ∀ gr v gr',
    igraph_add_edges gr v = (IGRAPH_SUCCESS, gr') →
    ∃ k, n gr' = n gr ∧ length (edges gr') = (length (edges gr) + k)%nat
         ∧ attr gr' = attribute_add_edges k <$> attr gr;
  delete_vertices_done : ∀ gr vs gr',
    igraph_delete_vertices gr vs = (IGRAPH_SUCCESS, gr') →
    ∃ vidx eidx, n gr' = Z.of_nat (length vidx) ∧ length (edges gr') = length eidx
         ∧ attr gr' = attribute_delete_vertices vidx eidx <$> attr gr;
  delete_edges_done : ∀ gr es gr',
    igraph_delete_edges gr es = (IGRAPH_SUCCESS, gr') →
    ∃ eidx, n gr' = n gr ∧ length (edges gr') = length eidx
         ∧ attr gr' = attribute_delete_edges eidx <$> attr gr;
  add_vertices_failed : ∀ gr nv e m gr',
    igraph_add_vertices gr nv = (IGRAPH_FAILURE e m, gr') → gr' = gr;
  add_edges_failed : ∀ gr v e m gr',
    igraph_add_edges gr v = (IGRAPH_FAILURE e m, gr') → gr' = gr;
  delete_vertices_failed : ∀ gr vs e m gr',
    igraph_delete_vertices gr vs = (IGRAPH_FAILURE e m, gr') → gr' = gr;
  delete_edges_failed : ∀ gr es e m gr',
    igraph_delete_edges gr es = (IGRAPH_FAILURE e m, gr') → gr' = gr
}.

(** A vertex id of the graph. *)
Definition valid_vid (gr : igraph) (i : Z) : Prop := 0 ≤ i < igraph_vcount gr.

(** The vertices a selector stands for, in the order of the result. *)
Definition vs_ids (gr : igraph) (vs : igraph_vs_t) : list Z :=
  match vs with
  | igraph_vs_all => seqZ 0 (igraph_vcount gr)
  | igraph_vs_1 i => [i]
  | igraph_vss_vector v => v
  end.

(** The three neighbourhood modes. *)
Definition valid_mode (mode : Z) : Prop :=
  mode = IGRAPH_OUT ∨ mode = IGRAPH_IN ∨ mode = IGRAPH_ALL.

(** [igraph_degree] answers a selector of valid vertices with one number per
    selected vertex, which depends on the vertex and not on the selector it
    came in; and a vector of no elements can always be set up. *)
Definition DegreeContract (E : NativeEngine) : Prop :=
  igraph_vector_init 0 = IGRAPH_SUCCESS
  ∧ ∃ deg : igraph → Z → bool → Z → Z,
      ∀ gr vs mode loops, valid_mode mode → Forall (valid_vid gr) (vs_ids gr vs) →
        igraph_degree gr vs mode loops = Done (deg gr mode loops <$> vs_ids gr vs).

(** ** A reference engine

    A small executable engine over the edge list, used to run the binding on
    concrete graphs.  It checks its arguments before it changes anything and
    calls the attribute handler on every structural change. *)
Module Reference.
Definition IGRAPH_ENOMEM : Z := 2.
Definition IGRAPH_EINVAL : Z := 4.
Definition IGRAPH_EINVEVECTOR : Z := 6.
Definition IGRAPH_EINVVID : Z := 7.
Definition IGRAPH_EINVMODE : Z := 9.

Definition in_range (nv i : Z) : bool := (0 <=? i) && (i <? nv).

Definition memZ (i : Z) (l : list Z) : bool := existsb (Z.eqb i) l.

Fixpoint pairs_of (v : list Z) : list (Z * Z) :=
match v with
| a :: b :: r => (a, b) :: pairs_of r
| _ => []
end.

Definition empty (nv : Z) (d : bool) : native igraph :=
if nv <? 0 then Failed IGRAPH_EINVAL "cannot create empty graph with negative number of vertices"
else Done (Igraph nv d [] (Some empty_hashes)).

Definition create (v : list Z) (nv : Z) (d : bool) : native igraph :=
if negb (Nat.even (length v)) then Failed IGRAPH_EINVEVECTOR "Invalid (odd) edges vector"
else if negb (forallb (Z.leb 0) v) then Failed IGRAPH_EINVVID "Invalid (negative) vertex id"
else if nv <? 0 then Failed IGRAPH_EINVAL "cannot create empty graph with negative number of vertices"
else Done (Igraph (foldr (λ i m, Z.max (i + 1) m) nv v) d (pairs_of v) (Some empty_hashes)).

Definition add_vertices (gr : igraph) (nv : Z) : igraph_status * igraph :=
if nv <? 0 then (IGRAPH_FAILURE IGRAPH_EINVAL "cannot add negative number of vertices", gr)
else (IGRAPH_SUCCESS,
      Igraph (n gr + nv) (directed gr) (edges gr)
             (attribute_add_vertices (Z.to_nat nv) <$> attr gr)).

Definition add_edges (gr : igraph) (v : list Z) : igraph_status * igraph :=
if negb (Nat.even (length v)) then
  (IGRAPH_FAILURE IGRAPH_EINVEVECTOR "invalid (odd) length of edges vector", gr)
else if negb (forallb (in_range (n gr)) v) then
  (IGRAPH_FAILURE IGRAPH_EINVVID "cannot add edges", gr)
else (IGRAPH_SUCCESS,
      Igraph (n gr) (directed gr) (edges gr ++ pairs_of v)
             (attribute_add_edges (length (pairs_of v)) <$> attr gr)).

(** The new id of a surviving vertex: the number of survivors before it. *)
Definition rank (keep : list Z) (a : Z) : Z :=
Z.of_nat (length (List.filter (λ j, j <? a) keep)).

Definition indexed {A} (l : list A) : list (nat * A) := imap (λ i x, (i, x)) l.

Definition delete_vertices (gr : igraph) (vs : igraph_vs_t) : igraph_status * igraph :=
let ids := vs_ids gr vs in
if negb (forallb (in_range (n gr)) ids) then
  (IGRAPH_FAILURE IGRAPH_EINVVID "Cannot delete vertices", gr)
else
  let keep := List.filter (λ i, negb (memZ i ids)) (seqZ 0 (n gr)) in
  let kept := List.filter (λ ie, negb (memZ ie.2.1 ids) && negb (memZ ie.2.2 ids))
                          (indexed (edges gr)) in
  (IGRAPH_SUCCESS,
   Igraph (Z.of_nat (length keep)) (directed gr)
          ((λ ie, (rank keep ie.2.1, rank keep ie.2.2)) <$> kept)
          (attribute_delete_vertices (Z.to_nat <$> keep) (fst <$> kept) <$> attr gr)).

Definition same_edge (d : bool) (e f : Z * Z) : bool :=
((e.1 =? f.1) && (e.2 =? f.2)) || (negb d && (e.1 =? f.2) && (e.2 =? f.1)).

Definition delete_edges (gr : igraph) (es : igraph_es_t) : igraph_status * igraph :=
match es with
| igraph_es_vector ids =>
    if negb (forallb (in_range (Z.of_nat (length (edges gr)))) ids) then
      (IGRAPH_FAILURE IGRAPH_EINVAL "Cannot delete edges", gr)
    else
      let kept := List.filter (λ ie, negb (memZ (Z.of_nat ie.1) ids)) (indexed (edges gr)) in
      (IGRAPH_SUCCESS,
       Igraph (n gr) (directed gr) (snd <$> kept)
              (attribute_delete_edges (fst <$> kept) <$> attr gr))
| igraph_es_pairs v _ =>
    let ps := pairs_of v in
    if negb (Nat.even (length v))
       || negb (forallb (λ p, existsb (same_edge (directed gr) p) (edges gr)) ps) then
      (IGRAPH_FAILURE IGRAPH_EINVAL "Cannot delete edges", gr)
    else
      let kept := List.filter (λ ie, negb (existsb (same_edge (directed gr) ie.2) ps))
                              (indexed (edges gr)) in
      (IGRAPH_SUCCESS,
       Igraph (n gr) (directed gr) (snd <$> kept)
              (attribute_delete_edges (fst <$> kept) <$> attr gr))
end.

Definition count {A} (p : A → bool) (l : list A) : Z := Z.of_nat (length (List.filter p l)).

(** The degree of vertex [i]; an undirected edge counts at both ends. *)
Definition deg (gr : igraph) (mode : Z) (loops : bool) (i : Z) : Z :=
let es := if loops then edges gr else List.filter (λ e, negb (e.1 =? e.2)) (edges gr) in
let out := count (λ e, e.1 =? i) es in
let inc := count (λ e, e.2 =? i) es in
if negb (directed gr) || (mode =? IGRAPH_ALL) then out + inc
else if mode =? IGRAPH_OUT then out else inc.

Definition degree (gr : igraph) (vs : igraph_vs_t) (mode : Z) (loops : bool) : native (list Z) :=
if negb (forallb (in_range (n gr)) (vs_ids gr vs)) then
  Failed IGRAPH_EINVVID "cannot count degree"
else if negb ((mode =? IGRAPH_OUT) || (mode =? IGRAPH_IN) || (mode =? IGRAPH_ALL)) then
  Failed IGRAPH_EINVMODE "degree calculation failed"
else Done (deg gr mode loops <$> vs_ids gr vs).

Definition get_adjacency (gr : igraph) (t : Z) : native (list (list Z)) :=
Done ((λ i, (λ j, count (λ e, same_edge (directed gr) e (i, j)) (edges gr))
              <$> seqZ 0 (n gr))
        <$> seqZ 0 (n gr)).

Definition neighbours (gr : igraph) (mode : Z) (v : Z) : list Z :=
let outs := snd <$> List.filter (λ e, e.1 =? v) (edges gr) in
let ins := fst <$> List.filter (λ e, e.2 =? v) (edges gr) in
if negb (directed gr) || (mode =? IGRAPH_ALL) then outs ++ ins
else if mode =? IGRAPH_OUT then outs else ins.

(** Breadth first search by layers: the vertices in visiting order, the
  position at which every layer starts, and the father of every vertex
  reached. *)
Definition bfs_round (gr : igraph) (mode : Z) (seen : list Z)
  (fathers : list (Z * Z)) (frontier : list Z) : list Z * list (Z * Z) :=
foldl (λ acc v,
         foldl (λ acc' u, if memZ u (seen ++ acc'.1) then acc'
                          else (acc'.1 ++ [u], acc'.2 ++ [(u, v)]))
               acc (neighbours gr mode v))
      ([], fathers) frontier.

Fixpoint bfs_layers (gr : igraph) (mode : Z) (fuel : nat)
  (frontier seen starts : list Z) (fathers : list (Z * Z)) : list Z * list Z * list (Z * Z) :=
match fuel with
| O => (seen, starts ++ [Z.of_nat (length seen)], fathers)
| S k =>
    let step := bfs_round gr mode seen fathers frontier in
    match step.1 with
    | [] => (seen, starts ++ [Z.of_nat (length seen)], fathers)
    | _ => bfs_layers gr mode k step.1 (seen ++ step.1)
                      (starts ++ [Z.of_nat (length seen)]) step.2
    end
end.

Definition bfs (gr : igraph) (vid mode : Z) : native (list Z * list Z * list Z) :=
if negb (in_range (n gr) vid) then Failed IGRAPH_EINVVID "Invalid root vertex in BFS"
else
  let r := bfs_layers gr mode (Z.to_nat (n gr)) [vid] [vid] [0] [(vid, vid)] in
  Done (r.1.1, r.1.2,
        (λ v, default 0 (snd <$> List.find (λ p, p.1 =? v) r.2)) <$> seqZ 0 (n gr)).

Definition shift (k : Z) (es : list (Z * Z)) : list (Z * Z) :=
(λ e, (e.1 + k, e.2 + k)) <$> es.

Definition disjoint_union (a b : igraph) : native igraph :=
if negb (Bool.eqb (directed a) (directed b)) then
  Failed IGRAPH_EINVAL "Cannot union directed and undirected graphs"
else Done (Igraph (n a + n b) (directed a) (edges a ++ shift (n a) (edges b))
                  (Some empty_hashes)).

Fixpoint disjoint_union_many (gs : list igraph) : native igraph :=
match gs with
| [] => Done (Igraph 0 true [] (Some empty_hashes))
| [a] => Done (Igraph (n a) (directed a) (edges a) (Some empty_hashes))
| a :: rest =>
    match disjoint_union_many rest with
    | Done r => disjoint_union a r
    | Failed e m => Failed e m
    end
end.

Definition add_new (d : bool) (acc : list (Z * Z)) (e : Z * Z) : list (Z * Z) :=
if existsb (same_edge d e) acc then acc else acc ++ [e].

Definition union (a b : igraph) : native igraph :=
if negb (Bool.eqb (directed a) (directed b)) then
  Failed IGRAPH_EINVAL "Cannot make union of directed and undirected graph"
else Done (Igraph (Z.max (n a) (n b)) (directed a)
                  (foldl (add_new (directed a)) [] (edges a ++ edges b))
                  (Some empty_hashes)).

Definition intersection (a b : igraph) : native igraph :=
if negb (Bool.eqb (directed a) (directed b)) then
  Failed IGRAPH_EINVAL "Cannot intersect directed and undirected graph"
else Done (Igraph (Z.max (n a) (n b)) (directed a)
                  (foldl (add_new (directed a)) []
                         (List.filter (λ e, existsb (same_edge (directed a) e) (edges b))
                                      (edges a)))
                  (Some empty_hashes)).

Definition many (op : igraph → igraph → native igraph) (gs : list igraph) : native igraph :=
match gs with
| [] => Done (Igraph 0 true [] (Some empty_hashes))
| a :: rest =>
    foldl (λ acc b, match acc with
                    | Done r => op r b
                    | Failed e m => Failed e m
                    end)
          (Done (Igraph (n a) (directed a) (edges a) (Some empty_hashes))) rest
end.

Definition vector_init (k : Z) : igraph_status :=
if k <? 0 then IGRAPH_FAILURE IGRAPH_EINVAL "vector size"
else IGRAPH_SUCCESS.

Definition engine : NativeEngine := {|
igraph_empty := empty;
igraph_create := create;
igraph_add_vertices := add_vertices;
igraph_delete_vertices := delete_vertices;
igraph_add_edges := add_edges;
igraph_delete_edges := delete_edges;
igraph_es_vector_init := λ v, Done (igraph_es_vector v);
igraph_es_pairs_init := λ v d, Done (igraph_es_pairs v d);
igraph_degree := degree;
igraph_get_adjacency := get_adjacency;
igraph_bfs := bfs;
igraph_disjoint_union := disjoint_union;
igraph_disjoint_union_many := disjoint_union_many;
igraph_union := union;
igraph_union_many := many union;
igraph_intersection := intersection;
igraph_intersection_many := many intersection;
igraph_vector_init := vector_init;
igraph_matrix_init := λ r c, vector_init (r * c)
|}.
End Reference.

(** ** Reading the call log *)

(** What a call added to the log. *)
Definition events_since (w w' : host) : list event :=
  drop (length (log w)) (log w').

Definition is_native_call (e : event) : bool :=
  match e with
  | Native _ _ _ => true
  | _ => false
  end.

Definition is_cleanup (e : event) : bool :=
  match e with
  | Cleanup _ => true
  | _ => false
  end.

Definition is_bridge (e : event) : bool :=
  match e with
  | ErrorBridge => true
  | _ => false
  end.

Definition is_native_release (e : event) : bool :=
  match e with
  | Cleanup fn_igraph_destroy => true
  | _ => false
  end.

Definition is_finalizer_call (e : event) : bool :=
  match e with
  | PyCall _ => true
  | _ => false
  end.

Definition is_reference_release (e : event) : bool :=
  match e with
  | Py_Decref _ => true
  | _ => false
  end.

Definition is_weakref_clear (e : event) : bool :=
  match e with
  | ClearWeakRefs => true
  | _ => false
  end.

Definition is_free (e : event) : bool :=
  match e with
  | GC_Del => true
  | _ => false
  end.

(** A failed native call that touches the graph or builds a selector;
    setting up a result vector is kept apart. *)
Definition is_engine_failure (e : event) : bool :=
  match e with
  | Native fn_igraph_vector_init _ _ => false
  | Native _ _ (IGRAPH_FAILURE _ _) => true
  | _ => false
  end.

Definition is_failure (e : event) : bool :=
  match e with
  | Native _ _ (IGRAPH_FAILURE _ _) => true
  | _ => false
  end.

(** No [p] event comes after a [q] event: all of [p] is over before [q]
    starts. *)
Fixpoint precedes (p q : event → bool) (l : list event) : bool :=
  match l with
  | [] => true
  | e :: rest => (if q e then negb (existsb p rest) else true) && precedes p q rest
  end.

(** Every failed native call is followed at once by the error bridge. *)
Fixpoint bridge_follows_failure (l : list event) : bool :=
  match l with
  | [] => true
  | e :: rest =>
      (if is_failure e then
         match rest with
         | ErrorBridge :: _ => true
         | _ => false
         end
       else true) && bridge_follows_failure rest
  end.

(** The bridge is reached through destructor calls only. *)
Fixpoint bridge_after_cleanup (l : list event) : bool :=
  match l with
  | ErrorBridge :: _ => true
  | Cleanup _ :: rest => bridge_after_cleanup rest
  | _ => false
  end.

(** Every failed engine call is followed by the error bridge, with nothing
    but destructor calls in between. *)
Fixpoint bridge_after_failure (l : list event) : bool :=
  match l with
  | [] => true
  | e :: rest =>
      (if is_engine_failure e then bridge_after_cleanup rest else true)
      && bridge_after_failure rest
  end.

(** The objects a traversal hands to the collector when no visit stops it:
    the finalizer, then the three attribute dictionaries. *)
Definition traverse_targets (self : Graph) : list PyObject :=
  option_list (destructor self)
  ++ match attr (g self) with
     | Some a => [hash_graph a; hash_vertex a; hash_edge a]
     | None => []
     end.

(** The values stored in a dictionary. *)
Definition dict_values (d : PyObject) : list PyObject :=
  match d with
  | PyDict m => (map_to_list m).*2
  | _ => []
  end.

(** The n-ary operators. *)
Inductive nary_operator : Type := DisjointUnion | Union | Intersection.

Definition binary_fn (op : nary_operator) : native_fn :=
  match op with
  | DisjointUnion => fn_igraph_disjoint_union
  | Union => fn_igraph_union
  | Intersection => fn_igraph_intersection
  end.

Definition many_fn (op : nary_operator) : native_fn :=
  match op with
  | DisjointUnion => fn_igraph_disjoint_union_many
  | Union => fn_igraph_union_many
  | Intersection => fn_igraph_intersection_many
  end.

(** The four structural mutators. *)
Inductive structural_op : Type :=
| AddVertices | DeleteVertices | AddEdges | DeleteEdges.

Section Dispatch.
Context {E : NativeEngine}.

Definition operator_method (op : nary_operator) : Graph → PyObject → M (option PyObject) :=
match op with
| DisjointUnion => igraphmodule_Graph_disjoint_union
| Union => igraphmodule_Graph_union
| Intersection => igraphmodule_Graph_intersection
end.

Definition binary_engine (op : nary_operator) : igraph → igraph → native igraph :=
match op with
| DisjointUnion => igraph_disjoint_union
| Union => igraph_union
| Intersection => igraph_intersection
end.

Definition many_engine (op : nary_operator) : list igraph → native igraph :=
match op with
| DisjointUnion => igraph_disjoint_union_many
| Union => igraph_union_many
| Intersection => igraph_intersection_many
end.

Definition mutator (op : structural_op) : Graph → list PyObject → M (option PyObject * Graph) :=
match op with
| AddVertices => igraphmodule_Graph_add_vertices
| DeleteVertices => igraphmodule_Graph_delete_vertices
| AddEdges => igraphmodule_Graph_add_edges
| DeleteEdges => igraphmodule_Graph_delete_edges
end.

(** The handles host code can get hold of: a constructed graph, what the
  mutators leave of one, one whose vertex or edge attributes were set or
  deleted, and one with a finalizer registered.  Setting a vertex
  attribute is also what [igraphmodule_Graph_Preference] does when it
  stores the list of vertex types under the key it is given. *)
Inductive reachable : Graph → Prop :=
| reachable_new (w0 w1 w2 : host) (shell self : Graph) (args : list PyObject) :
  igraphmodule_Graph_new w0 = (Some shell, w1) →
  igraphmodule_Graph_init shell args w1 = ((0, self), w2) →
  reachable self
| reachable_mutated (op : structural_op) (w w' : host) (self self' : Graph)
  (args : list PyObject) (r : option PyObject) :
  reachable self →
  mutator op self args w = ((r, self'), w') →
  reachable self'
| reachable_vertex_set (self self' : Graph) (key : string) (values : list PyObject) :
  reachable self →
  set_vertex_attribute self key values = Some self' →
  reachable self'
| reachable_vertex_deleted (self self' : Graph) (key : string) :
  reachable self →
  delete_vertex_attribute self key = Some self' →
  reachable self'
| reachable_edge_set (self self' : Graph) (key : string) (values : list PyObject) :
  reachable self →
  set_edge_attribute self key values = Some self' →
  reachable self'
| reachable_edge_deleted (self self' : Graph) (key : string) :
  reachable self →
  delete_edge_attribute self key = Some self' →
  reachable self'
| reachable_registered (w w' : host) (self self' : Graph)
  (args : list PyObject) (r : option PyObject) :
  reachable self →
  igraphmodule_Graph___register_destructor__ self args w = ((r, self'), w') →
  reachable self'.
End Dispatch.

(** ** Sample objects *)

Definition names : PyObject :=
  PyDict {[ "name"%string := PyList [PyString "a"; PyString "b"] ]}.
Definition weights : PyObject :=
  PyDict {[ "weight"%string := PyList [PyInt 7] ]}.
Definition title : PyObject :=
  PyDict {[ "title"%string := PyString "sample" ]}.

(** Two vertices joined by an edge, with one attribute in every scope, a
    finalizer, both cached views and a weak reference. *)
Definition sample : Graph :=
  GraphObject (Igraph 2 false [(0, 1)] (Some (AttrHashes title names weights)))
              (Some (PyFunction "on_free")) (Some (PyOpaque "VertexSeq"))
              (Some (PyOpaque "EdgeSeq")) (Some (PyOpaque "weakref")).

(** Five isolated vertices with a vertex attribute. *)
Definition five : Graph :=
  GraphObject (Igraph 5 false []
                 (Some (AttrHashes (PyDict ∅)
                          (PyDict {[ "label"%string :=
                             PyList [PyInt 0; PyInt 1; PyInt 2; PyInt 3; PyInt 4] ]})
                          (PyDict ∅))))
              None None None None.

(** A directed triangle. *)
Definition triangle : Graph :=
  GraphObject (Igraph 3 true [(0, 1); (1, 2); (2, 0)] (Some empty_hashes))
              None None None None.

(** ** The calls of the binding, taken together *)

Definition is_invalid_vertex_error (e : event) : bool :=
  match e with
  | PyErr_Set PyExc_ValueError msg => String.eqb msg "invalid vertex id"
  | _ => false
  end.

Definition is_bfs_call (e : event) : bool :=
  match e with
  | Native fn_igraph_bfs _ _ => true
  | _ => false
  end.

Inductive binding_call : Type :=
| Call_init (args : list PyObject)
| Call_mutator (op : structural_op) (args : list PyObject)
| Call_degree (args : list PyObject)
| Call_get_adjacency (args : list PyObject)
| Call_bfs (slot : Z) (args : list PyObject)
| Call_operator (op : nary_operator) (other : PyObject).

(** The host state a call leaves behind. *)
Definition host_after {E : NativeEngine} (c : binding_call) (self : Graph) (w : host) : host :=
  match c with
  | Call_init args => (igraphmodule_Graph_init self args w).2
  | Call_mutator op args => (mutator op self args w).2
  | Call_degree args => (igraphmodule_Graph_degree self args w).2
  | Call_get_adjacency args => (igraphmodule_Graph_get_adjacency self args w).2
  | Call_bfs slot args => (igraphmodule_Graph_bfs self slot args w).2
  | Call_operator op other => (operator_method op self other w).2
  end.

(** The calls that take no result vector of their own. *)
Definition bridges_at_once (c : binding_call) : bool :=
  match c with
  | Call_init _ | Call_mutator _ _ | Call_get_adjacency _ => true
  | _ => false
  end.

(** What a traversal did: either every target was visited and answered
    with 0, or the visits stopped at the first target answered otherwise,
    whose answer is the value returned. *)
Definition traversal (visit : PyObject → Z) (targets visited : list PyObject) (vret : Z) : Prop :=
  (vret = 0 ∧ visited = targets ∧ Forall (λ o, visit o = 0) visited)
  ∨ (vret ≠ 0 ∧ ∃ pre o post, visited = pre ++ [o] ∧ targets = pre ++ o :: post
                           ∧ visit o = vret ∧ Forall (λ o, visit o = 0) pre).

(** Both readings of "the bridge comes after the failure". *)
Definition bridged_at_once (l : list event) : Prop :=
  bridge_follows_failure l = true ∧ bridge_after_failure l = true.

(** A graph as the constructor leaves it: [Graph(3, [(0,1), (1,2)])]. *)
Definition path3 : Graph :=
  set_g (igraphmodule_Graph_init_internal blank)
        (Igraph 3 false [(0, 1); (1, 2)] (Some empty_hashes)).

(** The same graph once its vertices are named and its edges weighted. *)
Definition named_path3 : Graph :=
  set_g (igraphmodule_Graph_init_internal blank)
        (Igraph 3 false [(0, 1); (1, 2)]
           (Some (AttrHashes (PyDict ∅)
                    (PyDict {[ "name"%string :=
                       PyList [PyString "a"; PyString "b"; PyString "c"] ]})
                    (PyDict {[ "weight"%string := PyList [PyInt 7; PyInt 9] ]})))).


(** ** Graph attributes through the mapping protocol *)

(** The three functions behind [len(g)], [g[k]], [g[k] = v] and [del g[k]]
    work on the dictionary [((PyObject** )self->g.attr)[ATTRHASH_IDX_GRAPH]],
    which is their argument [dict] here; attribute names are strings.
    [PyDict_SetItem] can fail for want of memory only. *)
Definition igraphmodule_Graph_attribute_count (dict : gmap string PyObject) : Z :=
  Z.of_nat (size dict).

Definition igraphmodule_Graph_get_attribute (dict : gmap string PyObject) (s : string)
  : M (option PyObject) :=
  match dict !! s with
  | Some result => emit (Py_Incref result) ;;; ret (Some result)
  | None =>
      λ w, match py_err w with
           | None => (PyErr_SetString PyExc_KeyError "Attribute does not exist" ;;; ret None) w
           | Some _ => (None, w)
           end
  end.

(** [v = None] is the [NULL] value of a deletion. *)
Definition igraphmodule_Graph_set_attribute
    (dict : gmap string PyObject) (k : string) (v : option PyObject)
  : M (Z * gmap string PyObject) :=
  match v with
  | None =>
      match dict !! k with
      | Some _ => ret (0, delete k dict)
      | None => PyErr_SetString PyExc_KeyError k ;;; ret (-1, dict)
      end
  | Some v =>
      emit (Py_Incref v) ;;;
      λ w, if alloc_ok w then (0, <[k := v]> dict, w)
           else (PyErr_SetString PyExc_MemoryError "dictionary" ;;;
                 emit (Py_Decref v) ;;;
                 ret (-1, dict)) w
  end.

(** [PyDict_Keys] *)
Definition igraphmodule_Graph_attributes (dict : gmap string PyObject) : PyObject :=
  PyList (PyString <$> (map_to_list dict).*1).

(** The graph-scope dictionary of a handle, when it has a store. *)
Definition graph_scope (self : Graph) : option (gmap string PyObject) :=
  match attr (g self) with
  | Some a => match attrhash a ATTRHASH_IDX_GRAPH with
              | PyDict m => Some m
              | _ => None
              end
  | None => None
  end.

Definition igraphmodule_Graph_is_directed (self : Graph) : PyObject :=
  if igraph_is_directed (g self) then Py_True else Py_False.

(** ** The cached views *)

Section Views.
(** The constructors of the two sequence objects (vertexseqobject.c and
edgeseqobject.c are not among the sources); the object is taken to be
created. *)
Variable igraphmodule_VertexSeq_New : Graph → PyObject.
Variable igraphmodule_EdgeSeq_New : Graph → PyObject.

Definition igraphmodule_Graph_get_vertices (self : Graph) : M (PyObject * Graph) :=
let v := match vseq self with
       | None => igraphmodule_VertexSeq_New self
       | Some v => v
       end in
let self := GraphObject (g self) (destructor self) (Some v) (eseq self) (weakreflist self) in
emit (Py_Incref v) ;;; ret (v, self).

Definition igraphmodule_Graph_get_edges (self : Graph) : M (PyObject * Graph) :=
let v := match eseq self with
       | None => igraphmodule_EdgeSeq_New self
       | Some v => v
       end in
let self := GraphObject (g self) (destructor self) (vseq self) (Some v) (weakreflist self) in
emit (Py_Incref v) ;;; ret (v, self).
End Views.

(** ** More readings of the log *)

Definition is_vector_destroy (e : event) : bool :=
  match e with
  | Cleanup fn_igraph_vector_destroy => true
  | _ => false
  end.

Definition is_es_destroy (e : event) : bool :=
  match e with
  | Cleanup fn_igraph_es_destroy => true
  | _ => false
  end.

Definition is_vs_destroy (e : event) : bool :=
  match e with
  | Cleanup fn_igraph_vs_destroy => true
  | _ => false
  end.

Definition is_reference_gain (e : event) : bool :=
  match e with
  | Py_Incref _ => true
  | _ => false
  end.

(** The native calls in a log. *)
Definition native_calls (l : list event) : list event := List.filter is_native_call l.

(** An engine like the reference one on which no vector or matrix can be
    set up. *)
Definition out_of_memory_engine : NativeEngine := {|
  igraph_empty := Reference.empty;
  igraph_create := Reference.create;
  igraph_add_vertices := Reference.add_vertices;
  igraph_delete_vertices := Reference.delete_vertices;
  igraph_add_edges := Reference.add_edges;
  igraph_delete_edges := Reference.delete_edges;
  igraph_es_vector_init := λ v, Done (igraph_es_vector v);
  igraph_es_pairs_init := λ v d, Done (igraph_es_pairs v d);
  igraph_degree := Reference.degree;
  igraph_get_adjacency := Reference.get_adjacency;
  igraph_bfs := Reference.bfs;
  igraph_disjoint_union := Reference.disjoint_union;
  igraph_disjoint_union_many := Reference.disjoint_union_many;
  igraph_union := Reference.union;
  igraph_union_many := Reference.many Reference.union;
  igraph_intersection := Reference.intersection;
  igraph_intersection_many := Reference.many Reference.intersection;
  igraph_vector_init := λ _, IGRAPH_FAILURE Reference.IGRAPH_ENOMEM "out of memory";
  igraph_matrix_init := λ _ _, IGRAPH_FAILURE Reference.IGRAPH_ENOMEM "out of memory"
|}.

(** A host that has run out of memory for new objects. *)
Definition host_without_memory : host := Host None None false [].

(** * Verification *)

(** ** Tactics *)

(** The events a call appended, once the log is written as the old log
    followed by the new events. *)
Ltac since :=
  unfold events_since; cbn [log snd fst];
  rewrite <- ?app_assoc;
  first [ rewrite drop_app_length | rewrite drop_ge by lia ];
  cbn [app].

(** One step of the state monad. *)
Ltac run :=
  cbv [bind ret emit cleanup call_native call_out PyErr_NoMemory PyErr_SetString PyErr_Clear
       igraphmodule_handle_igraph_error Py_XDECREF bad_arity return_self];
  cbn [fst snd py_err err_slot alloc_ok log failed status_of fmap option_fmap option_map].

(** Case analysis on whatever the next step of a call branches on: the
    result of a native call first, then its status, then any other value;
    never the state itself. *)
Ltac branch :=
  match goal with
  | |- context [fst ?x] =>
      lazymatch type of x with
      | (_ * host)%type => fail
      | _ => destruct x
      end
  | |- context [failed ?x] => destruct x
  | |- context [match ?x with _ => _ end] =>
      lazymatch type of x with
      | (_ * host)%type => fail
      | _ => destruct x
      end
  end; run.

Ltac settle := solve [ since; reflexivity | split; since; reflexivity ].

Ltac walk := run; repeat first [ settle | branch ].

(** ** The log *)

Lemma precedes_spec (p q : event → bool) (l : list event) :
  precedes p q l = true ↔
  ∀ i j a b, l !! i = Some a → l !! j = Some b → q a = true → p b = true → (j ≤ i)%nat.
Proof.
  induction l as [|e l IH]; cbn [precedes].
  - split; [intros _ i j a b Hi; by rewrite lookup_nil in Hi | done].
  - rewrite andb_true_iff, IH. split.
    + intros [He Hl] i j a b Hi Hj Hq Hp.
      destruct i as [|i], j as [|j]; cbn in Hi, Hj; try lia.
      * injection Hi as ->. rewrite Hq in He. apply negb_true_iff in He.
        assert (existsb p l = true) as Hex; [|congruence].
        apply existsb_exists. exists b. split; [|done].
        apply list_elem_of_In. by eapply list_elem_of_lookup_2.
      * specialize (Hl i j a b Hi Hj Hq Hp). lia.
    + intros H. split.
      * destruct (q e) eqn:Hq; [|done]. apply negb_true_iff.
        destruct (existsb p l) eqn:Hex; [|done].
        apply existsb_exists in Hex as (b & Hin & Hp).
        apply list_elem_of_In, list_elem_of_lookup_1 in Hin as [j Hj].
        specialize (H 0%nat (S j) e b eq_refl Hj Hq Hp). lia.
      * intros i j a b Hi Hj Hq Hp.
        specialize (H (S i) (S j) a b Hi Hj Hq Hp). lia.
Qed.

Lemma mapM_as_int (ids : list Z) : mapM as_int (PyInt <$> ids) = Some ids.
Proof. induction ids as [|i ids IH]; [done|]. cbn. by rewrite IH. Qed.

(** ** Garbage collection and deallocation *)

Lemma traverse_hashes_events (visit : PyObject → Z) (a : attr_hashes PyObject)
    (idx : list nat) (w : host) :
  ∃ visited,
    log (traverse_hashes visit a idx w).2 = log w ++ (Visit <$> visited)
    ∧ traversal visit (attrhash a <$> idx) visited (traverse_hashes visit a idx w).1.
Proof.
  revert w. induction idx as [|i idx IH]; intros w; cbn [traverse_hashes].
  - exists []. split; [by rewrite app_nil_r | left; by repeat split].
  - unfold call_visit. run.
    destruct (visit (attrhash a i) =? 0) eqn:Hv; cbn [negb].
    + apply Z.eqb_eq in Hv.
      destruct (IH (Host (py_err w) (err_slot w) (alloc_ok w) (log w ++ [Visit (attrhash a i)])))
        as (visited & Hlog & Ht).
      exists (attrhash a i :: visited). split.
      * rewrite Hlog. cbn [log]. by rewrite <- app_assoc.
      * destruct Ht as [(? & -> & ?)|(? & pre & o & post & -> & Hidx & ? & ?)].
        -- left. repeat split; [done|by constructor].
        -- right. split; [done|]. exists (attrhash a i :: pre), o, post.
           rewrite fmap_cons, Hidx. repeat split; [done|by constructor].
    + apply Z.eqb_neq in Hv. exists [attrhash a i]. split; [done|].
      right. split; [done|]. exists [], (attrhash a i), (attrhash a <$> idx).
      by repeat split.
Qed.

(** C2, as the code has it: a traversal hands to the collector the
    registered finalizer (if there is one) and then the three attribute
    dictionaries of the graph, the vertex and the edge scope (if the store
    exists), in this order; it stops at the first visit the collector
    answers with a nonzero value and returns that value, and returns 0
    otherwise.  Nothing else is visited: neither the cached views nor, by
    the traversal itself, what the dictionaries hold. *)
Theorem traverse_visits (visit : PyObject → Z) (self : Graph) (w : host) :
  let r := igraphmodule_Graph_traverse visit self w in
  ∃ visited,
    events_since w r.2 = Visit <$> visited
    ∧ traversal visit (traverse_targets self) visited r.1.
Proof.
  cbv zeta. unfold igraphmodule_Graph_traverse, traverse_targets, call_visit.
  destruct self as [[nv dir es at_] [d|] v e wr]; cbn [destructor attr g option_list app].
  - run. destruct (visit d =? 0) eqn:Hv; cbn [negb].
    + apply Z.eqb_eq in Hv. destruct at_ as [a|].
      * destruct (traverse_hashes_events visit a (seq 0 3)
                    (Host (py_err w) (err_slot w) (alloc_ok w) (log w ++ [Visit d])))
          as (visited & Hlog & Ht).
        exists (d :: visited). split.
        -- unfold events_since. rewrite Hlog. cbn [log].
           rewrite <- app_assoc. by rewrite drop_app_length.
        -- destruct Ht as [(? & -> & ?)|(? & pre & o & post & -> & Hidx & ? & ?)].
           ++ left. repeat split; [done|by constructor].
           ++ right. split; [done|]. exists (d :: pre), o, post.
              cbn in Hidx. cbn. rewrite Hidx. repeat split; [done|by constructor].
      * exists [d]. split; [by since|]. left. repeat split; by repeat constructor.
    + apply Z.eqb_neq in Hv. exists [d]. split; [by since|].
      right. split; [done|].
      exists [], d, (match at_ with
                     | Some a => [hash_graph a; hash_vertex a; hash_edge a]
                     | None => []
                     end).
      by repeat split.
  - run. change (negb (0 =? 0)) with false. cbv iota. destruct at_ as [a|].
    + destruct (traverse_hashes_events visit a (seq 0 3) w) as (visited & Hlog & Ht).
      exists visited. split; [|done].
      unfold events_since. rewrite Hlog. by rewrite drop_app_length.
    + exists []. split; [|left; by repeat split].
      unfold events_since. cbn. by rewrite drop_all.
Qed.

(** C2, as the claim has it, fails: on the sample graph the traversal
    visits the dictionary of the vertex attributes, which is neither the
    finalizer nor the graph-scope dictionary nor one of its values. *)
Lemma traverse_counterexample :
  ¬ (∀ (visit : PyObject → Z) (self : Graph) (w : host) (o : PyObject),
       In (Visit o) (events_since w (igraphmodule_Graph_traverse visit self w).2) →
       destructor self = Some o
       ∨ ∃ a, attr (g self) = Some a ∧ (o = hash_graph a ∨ In o (dict_values (hash_graph a)))).
Proof.
  intros H.
  destruct (H (λ _, 0) sample host0 names) as [Hd|(a & Ha & [Hg|Hv])].
  - vm_compute. right; right; left; reflexivity.
  - discriminate Hd.
  - injection Ha as <-. cbn [hash_graph] in Hg.
    apply (f_equal (λ d, PyDict_GetItem d "name")) in Hg.
    unfold names, title, PyDict_GetItem in Hg.
    rewrite lookup_singleton_eq, lookup_singleton_ne in Hg by done. discriminate Hg.
  - injection Ha as <-. cbn [hash_graph] in Hv.
    unfold dict_values, title in Hv. rewrite map_to_list_singleton in Hv.
    destruct Hv as [Hv|[]]. discriminate Hv.
Qed.

Lemma dealloc_events (self : Graph) (w : host) :
  events_since w (igraphmodule_Graph_dealloc self w).2 =
    (if weakreflist self is Some _ then [ClearWeakRefs] else [])
    ++ [Cleanup fn_igraph_destroy]
    ++ (if PyCallable_Check (destructor self) then PyCall <$> option_list (destructor self) else [])
    ++ [GC_UnTrack]
    ++ (Py_Decref <$> option_list (vseq self))
    ++ (Py_Decref <$> option_list (eseq self))
    ++ (Py_Decref <$> option_list (destructor self))
    ++ [GC_Del].
Proof.
  destruct self as [gr [d|] [v|] [e|] [wr|]];
    unfold igraphmodule_Graph_dealloc, igraphmodule_Graph_clear;
    cbn [weakreflist destructor vseq eseq g];
    cbn [PyCallable_Check]; try destruct d; run; since; reflexivity.
Qed.

(** No call of the binding other than the deallocation releases the
    native graph. *)
Lemma call_keeps_native {E : NativeEngine} (c : binding_call) (self : Graph) (w : host) :
  existsb is_native_release (events_since w (host_after c self w)) = false.
Proof.
  destruct c as [args|op args|args|args|slot args|op other]; cbn [host_after];
    [|destruct op; cbn [mutator]| | | |destruct op; cbn [operator_method]];
    unfold igraphmodule_Graph_init, parse_init_args, igraphmodule_Graph_add_vertices,
      igraphmodule_Graph_delete_vertices, igraphmodule_Graph_add_edges,
      igraphmodule_Graph_delete_edges, igraphmodule_Graph_degree, parse_degree_args,
      igraphmodule_PyObject_to_vs_t, igraphmodule_Graph_get_adjacency,
      igraphmodule_Graph_bfs, bfs_vector_init, igraphmodule_Graph_disjoint_union,
      igraphmodule_Graph_union, igraphmodule_Graph_intersection, graph_operator,
      igraphmodule_PyIter_to_vector_ptr_t, wrap_result, tp_alloc,
      igraphmodule_PyList_to_vector_t, parse_l, parse_i, parse_integer.
  all: walk.
Qed.

Lemma clear_keeps_native (self : Graph) (w : host) :
  existsb is_native_release (events_since w (igraphmodule_Graph_clear self w).2) = false.
Proof.
  destruct self as [gr [d|] [v|] [e|] wr]; unfold igraphmodule_Graph_clear;
    cbn [weakreflist destructor vseq eseq g]; run; since; reflexivity.
Qed.

Lemma register_keeps_native (self : Graph) (args : list PyObject) (w : host) :
  existsb is_native_release
    (events_since w (igraphmodule_Graph___register_destructor__ self args w).2) = false.
Proof.
  unfold igraphmodule_Graph___register_destructor__.
  destruct args as [|d [|]]; run; [by since| |by since].
  destruct (PyCallable_Check (Some d)); cbn [negb]; run;
    [destruct (destructor self)|]; run; since; reflexivity.
Qed.

(** C3, as the code has it: deallocation first clears the weak references
    (when the handle has any), then releases the native graph, then calls
    the finalizer (when a callable is registered), then drops the references
    to the cached views and to the finalizer, each of which is released, and
    frees the object last, once.  The native graph is released exactly once
    by a deallocation, and by nothing else that is done with the handle:
    not by the constructor, the structural mutators, [degree],
    [get_adjacency], [bfs] or the n-ary operators, not when the references
    are cleared and not when a finalizer is registered. *)
Theorem dealloc_order (self : Graph) (w : host) :
  let evs := events_since w (igraphmodule_Graph_dealloc self w).2 in
  precedes is_weakref_clear is_native_release evs = true
  ∧ precedes is_native_release is_finalizer_call evs = true
  ∧ precedes is_finalizer_call is_reference_release evs = true
  ∧ precedes is_reference_release is_free evs = true
  ∧ length (List.filter is_native_release evs) = 1%nat
  ∧ existsb is_finalizer_call evs = PyCallable_Check (destructor self)
  ∧ existsb is_weakref_clear evs = bool_decide (weakreflist self ≠ None)
  ∧ (∀ o, In o (option_list (vseq self) ++ option_list (eseq self)
                ++ option_list (destructor self)) → In (Py_Decref o) evs)
  ∧ List.filter is_free evs = [GC_Del]
  ∧ last evs = Some GC_Del
  ∧ (∀ (E : NativeEngine) (c : binding_call) (w' : host),
       existsb is_native_release (events_since w' (host_after c self w')) = false)
  ∧ (∀ w', existsb is_native_release
             (events_since w' (igraphmodule_Graph_clear self w').2) = false)
  ∧ (∀ args w', existsb is_native_release
       (events_since w' (igraphmodule_Graph___register_destructor__ self args w').2) = false).
Proof.
  cbv zeta. rewrite dealloc_events.
  repeat match goal with |- _ ∧ _ => split end;
    try (intros; first [ apply call_keeps_native | apply clear_keeps_native
                       | apply register_keeps_native ]).
  all: destruct self as [gr [d|] [v|] [e|] [wr|]]; cbn [weakreflist destructor vseq eseq g];
    try destruct d; try reflexivity.
  all: cbn; intros x Hx; intuition (subst; auto).
Qed.

(** C3, as the claim has it, fails: on the sample graph the weak references
    are cleared before the native graph is released, not after. *)
Lemma dealloc_order_counterexample :
  ¬ (∀ (self : Graph) (w : host),
       let evs := events_since w (igraphmodule_Graph_dealloc self w).2 in
       precedes is_native_release is_finalizer_call evs = true
       ∧ precedes is_finalizer_call is_reference_release evs = true
       ∧ precedes is_native_release is_weakref_clear evs = true).
Proof.
  intros H. destruct (H sample host0) as (_ & _ & Hw).
  rewrite dealloc_events in Hw. discriminate Hw.
Qed.

(** ** Validation before the engine is called *)

(** C4: [add_vertices] with a negative count fails before the engine is
    called: the one thing it does is to raise the error (the assertion on
    the count, or the overflow of the argument parser for a count below the
    range of a C long), it gives back [NULL] and the handle is as before. *)
Theorem add_vertices_negative {E : NativeEngine} (self : Graph) (nv : Z) (w : host) :
  nv < 0 →
  let r := igraphmodule_Graph_add_vertices self [PyInt nv] w in
  r.1 = (None, self)
  ∧ ∃ exc msg, (exc = PyExc_AssertionError ∨ exc = PyExc_OverflowError)
      ∧ py_err r.2 = Some (exc, msg)
      ∧ events_since w r.2 = [PyErr_Set exc msg].
Proof.
  intros Hneg. cbv zeta.
  unfold igraphmodule_Graph_add_vertices, parse_l, parse_integer.
  destruct ((LONG_MIN <=? nv) && (nv <=? LONG_MAX)) eqn:Hrange; run.
  - apply Z.ltb_lt in Hneg. rewrite Hneg. run.
    split; [done|]. eexists _, _. split; [by left|]. split; [done|]. by since.
  - split; [done|]. eexists _, _. split; [by right|]. split; [done|]. by since.
Qed.

(** C4 at [add_vertices(-3)] on a graph of five vertices. *)
Lemma add_vertices_negative_witness :
  let r := igraphmodule_Graph_add_vertices (E := Reference.engine) five [PyInt (-3)] host0 in
  r.1 = (None, five)
  ∧ ∃ exc msg, (exc = PyExc_AssertionError ∨ exc = PyExc_OverflowError)
      ∧ py_err r.2 = Some (exc, msg)
      ∧ events_since host0 r.2 = [PyErr_Set exc msg].
Proof.
  apply (add_vertices_negative (E := Reference.engine) five (-3) host0). lia.
Defined.

(** When the high half of the variable happens to be clear, a root that is
    not negative is read back as it was given. *)
Lemma int_into_long_clear (slot vid : Z) :
  0 ≤ slot < 2 ^ 32 → 0 ≤ vid ≤ INT_MAX → int_into_long slot vid = vid.
Proof.
  unfold int_into_long, INT_MAX. intros Hs Hv. cbv zeta.
  rewrite (Z.mod_small slot) by lia.
  rewrite Z.shiftr_div_pow2, Z.div_small by lia.
  rewrite Z.shiftl_0_l, Z.lor_0_l, Z.mod_small by lia.
  destruct (vid <? 2 ^ 63) eqn:Hlt; lia.
Qed.

(** The check of [bfs] runs on the variable as it is read back, not on the
    root the caller gave: "invalid vertex id" is raised exactly when that
    number is negative or greater than the vertex count, and the engine is
    called, with that number, exactly when it is not. *)
Lemma bfs_root_test {E : NativeEngine} (self : Graph) (slot vid mode : Z) (w : host) :
  INT_MIN ≤ vid ≤ INT_MAX → INT_MIN ≤ mode ≤ INT_MAX →
  let root := int_into_long slot vid in
  let evs := events_since w (igraphmodule_Graph_bfs self slot [PyInt vid; PyInt mode] w).2 in
  (existsb is_invalid_vertex_error evs = true ↔ root < 0 ∨ igraph_vcount (g self) < root)
  ∧ (existsb is_bfs_call evs = true ↔ 0 ≤ root ≤ igraph_vcount (g self))
  ∧ (0 ≤ root ≤ igraph_vcount (g self) → ∃ st, In (Native fn_igraph_bfs [root; mode] st) evs).
Proof.
  intros Hv Hm. cbv zeta.
  unfold igraphmodule_Graph_bfs, parse_i, parse_integer.
  assert ((INT_MIN <=? vid) && (vid <=? INT_MAX) = true) as -> by lia.
  run.
  assert ((INT_MIN <=? mode) && (mode <=? INT_MAX) = true) as -> by lia.
  run. cbn [fmap option_fmap option_map].
  generalize (int_into_long slot vid). intros root.
  destruct ((root <? 0) || (igraph_vcount (g self) <? root)) eqn:Hbad.
  - run. since. cbn. split; [|split].
    + split; [lia|done].
    + split; [done|lia].
    + lia.
  - unfold bfs_vector_init. run.
    destruct (igraph_vector_init (igraph_vcount (g self))) as [|e m]; run;
      destruct (igraph_bfs (g self) root mode) as [[[vids layers] parents]|e' m']; run;
      since; cbn; (split; [|split]); try (split; [done|lia]); try (split; [lia|done]);
      intros; eexists; eauto 10.
Qed.

(** With a clear high half the check is the one on the root itself: a root
    from 0 to the vertex count, the count included, goes to the engine. *)
Lemma bfs_root_test_clear {E : NativeEngine} (self : Graph) (slot vid mode : Z) (w : host) :
  0 ≤ slot < 2 ^ 32 → 0 ≤ vid ≤ INT_MAX → INT_MIN ≤ mode ≤ INT_MAX →
  let evs := events_since w (igraphmodule_Graph_bfs self slot [PyInt vid; PyInt mode] w).2 in
  (existsb is_invalid_vertex_error evs = true ↔ igraph_vcount (g self) < vid)
  ∧ (vid ≤ igraph_vcount (g self) → ∃ st, In (Native fn_igraph_bfs [vid; mode] st) evs).
Proof.
  intros Hs Hv Hm. cbv zeta.
  assert (INT_MIN ≤ vid ≤ INT_MAX) as Hv' by (unfold INT_MIN, INT_MAX in *; lia).
  destruct (bfs_root_test self slot vid mode w Hv' Hm) as (Herr & _ & Hcall).
  rewrite (int_into_long_clear slot vid Hs Hv) in Herr, Hcall.
  split; [rewrite Herr; lia|]. intros Hle. apply Hcall. lia.
Qed.

(** C10, where the code parts from the claim: on a graph of five vertices
    [bfs(0)] names a vertex of the graph, and the claim has the check let it
    through; when the bytes of [vid] that the parser leaves unwritten are
    not zero (here the high half holds 1), the check refuses it with
    "invalid vertex id" and the engine is not called.  With these bytes
    zero, the same call reaches the engine. *)
Theorem bfs_refuses_a_valid_root :
  let r := igraphmodule_Graph_bfs (E := Reference.engine) five (2 ^ 32) [PyInt 0] host0 in
  let r0 := igraphmodule_Graph_bfs (E := Reference.engine) five 0 [PyInt 0] host0 in
  ¬ (0 < 0 ∨ igraph_vcount (g five) < 0)
  ∧ int_into_long (2 ^ 32) 0 = 2 ^ 32
  ∧ r.1 = None
  ∧ py_err r.2 = Some (PyExc_ValueError, "invalid vertex id"%string)
  ∧ events_since host0 r.2 = [PyErr_Set PyExc_ValueError "invalid vertex id"]
  ∧ existsb is_bfs_call (events_since host0 r0.2) = true.
Proof.
  cbv zeta. split; [unfold igraph_vcount; cbn; lia|].
  split; [reflexivity|]. by vm_compute.
Qed.

(** ** The n-ary operators *)

Lemma graph_operator_dispatch
    (f2 : native_fn) (op2 : igraph → igraph → native igraph)
    (fmany : native_fn) (opmany : list igraph → native igraph)
    (self : Graph) (other : PyObject) (w : host) :
  let r := graph_operator f2 op2 fmany opmany self other w in
  let calls := List.filter is_native_call (events_since w r.2) in
  match PyObject_GetIter other with
  | Some it =>
      match mapM PyObject_TypeCheck_Graph it with
      | Some hs => calls = [Native fmany [] (status_of (opmany (g <$> hs)))]
      | None => calls = [] ∧ r.1 = None ∧ ∃ msg, py_err r.2 = Some (PyExc_TypeError, msg)
      end
  | None =>
      match PyObject_TypeCheck_Graph other with
      | Some o => calls = [Native f2 [] (status_of (op2 (g self) (g o)))]
      | None => calls = [] ∧ r.1 = Some Py_NotImplemented ∧ py_err r.2 = None
      end
  end.
Proof.
  cbv zeta. unfold graph_operator, igraphmodule_PyIter_to_vector_ptr_t, wrap_result, tp_alloc.
  destruct (PyObject_GetIter other) as [it|].
  - destruct (mapM PyObject_TypeCheck_Graph it) as [hs|]; run.
    + destruct (opmany (g <$> hs)) as [gr|e m]; run;
        [destruct (alloc_ok w)|]; run; since; reflexivity.
    + since. repeat split. by eexists.
  - destruct (PyObject_TypeCheck_Graph other) as [o|]; run.
    + destruct (op2 (g self) (g o)) as [gr|e m]; run;
        [destruct (alloc_ok w)|]; run; since; reflexivity.
    + since. by repeat split.
Qed.

(** C7, as the code has it: an n-ary operator first asks for an iterator.
    If the argument is iterable, its items are converted to graphs and the
    [_many] function of the engine is the one native call, on exactly these
    graphs; an item that is no graph fails the conversion with a type error
    before any native call.  If the argument is not iterable but is a
    graph, the one native call is the function for two graphs, on the handle
    and the argument.  Otherwise the pending error is cleared and the
    [NotImplemented] object is returned: no exception is raised and no
    native call is made. *)
Theorem operator_dispatch {E : NativeEngine} (op : nary_operator)
    (self : Graph) (other : PyObject) (w : host) :
  let r := operator_method op self other w in
  let calls := List.filter is_native_call (events_since w r.2) in
  match PyObject_GetIter other with
  | Some it =>
      match mapM PyObject_TypeCheck_Graph it with
      | Some hs => calls = [Native (many_fn op) [] (status_of (many_engine op (g <$> hs)))]
      | None => calls = [] ∧ r.1 = None ∧ ∃ msg, py_err r.2 = Some (PyExc_TypeError, msg)
      end
  | None =>
      match PyObject_TypeCheck_Graph other with
      | Some o => calls = [Native (binary_fn op) [] (status_of (binary_engine op (g self) (g o)))]
      | None => calls = [] ∧ r.1 = Some Py_NotImplemented ∧ py_err r.2 = None
      end
  end.
Proof. destruct op; apply graph_operator_dispatch. Qed.

(** C7, as the claim has it, fails: [union] with the integer 5 returns an
    object and raises nothing. *)
Lemma operator_mismatch_counterexample :
  ¬ (∀ (E : NativeEngine) (op : nary_operator) (self : Graph) (other : PyObject) (w : host),
       PyObject_GetIter other = None → PyObject_TypeCheck_Graph other = None →
       let r := operator_method op self other w in
       r.1 = None ∧ ∃ msg, py_err r.2 = Some (PyExc_TypeError, msg)).
Proof.
  intros H.
  destruct (H Reference.engine Union triangle (PyInt 5) host0 eq_refl eq_refl) as [Hr _].
  discriminate Hr.
Qed.

(** ** The error bridge *)

Lemma init_bridges {E : NativeEngine} self args w :
  bridged_at_once (events_since w (igraphmodule_Graph_init self args w).2).
Proof.
  unfold bridged_at_once, igraphmodule_Graph_init, parse_init_args, igraphmodule_PyList_to_vector_t,
    parse_i, parse_integer.
  walk.
Qed.

Lemma add_vertices_bridges {E : NativeEngine} self args w :
  bridged_at_once (events_since w (igraphmodule_Graph_add_vertices self args w).2).
Proof.
  unfold bridged_at_once, igraphmodule_Graph_add_vertices, parse_l, parse_integer.
  walk.
Qed.

Lemma delete_vertices_bridges {E : NativeEngine} self args w :
  bridged_at_once (events_since w (igraphmodule_Graph_delete_vertices self args w).2).
Proof.
  unfold bridged_at_once, igraphmodule_Graph_delete_vertices, igraphmodule_PyList_to_vector_t.
  walk.
Qed.

Lemma add_edges_bridges {E : NativeEngine} self args w :
  bridged_at_once (events_since w (igraphmodule_Graph_add_edges self args w).2).
Proof.
  unfold bridged_at_once, igraphmodule_Graph_add_edges, igraphmodule_PyList_to_vector_t.
  walk.
Qed.

Lemma delete_edges_bridges {E : NativeEngine} self args w :
  bridged_at_once (events_since w (igraphmodule_Graph_delete_edges self args w).2).
Proof.
  unfold bridged_at_once, igraphmodule_Graph_delete_edges, igraphmodule_PyList_to_vector_t.
  walk.
Qed.

Lemma get_adjacency_bridges {E : NativeEngine} self args w :
  bridged_at_once (events_since w (igraphmodule_Graph_get_adjacency self args w).2).
Proof.
  unfold bridged_at_once, igraphmodule_Graph_get_adjacency, parse_i, parse_integer.
  walk.
Qed.

Lemma degree_bridges {E : NativeEngine} self args w :
  bridge_after_failure (events_since w (igraphmodule_Graph_degree self args w).2) = true.
Proof.
  unfold igraphmodule_Graph_degree, parse_degree_args, igraphmodule_PyObject_to_vs_t,
    parse_i, parse_integer.
  walk.
Qed.

Lemma bfs_bridges {E : NativeEngine} self slot args w :
  bridge_after_failure (events_since w (igraphmodule_Graph_bfs self slot args w).2) = true.
Proof.
  unfold igraphmodule_Graph_bfs, bfs_vector_init, parse_i, parse_integer.
  walk.
Qed.

Lemma operator_bridges {E : NativeEngine} op self other w :
  bridge_after_failure (events_since w (operator_method op self other w).2) = true.
Proof.
  destruct op; cbn [operator_method];
  unfold igraphmodule_Graph_disjoint_union, igraphmodule_Graph_union,
    igraphmodule_Graph_intersection, graph_operator,
    igraphmodule_PyIter_to_vector_ptr_t, wrap_result, tp_alloc.
  all: walk.
Qed.

(** C9, as the code has it, for the calls modelled here (the constructor,
    the four structural mutators, [degree], [get_adjacency], [bfs] and the
    three n-ary operators): after an engine call other than
    [igraph_vector_init] has failed, the error bridge is called before the
    binding returns, and nothing but destructors of buffers and selectors
    can run in between; in the constructor, the structural mutators and
    [get_adjacency] the bridge comes at once, before any destructor. *)
Theorem bridge_after_engine_failure {E : NativeEngine}
    (c : binding_call) (self : Graph) (w : host) :
  let evs := events_since w (host_after c self w) in
  bridge_after_failure evs = true
  ∧ (bridges_at_once c = true → bridge_follows_failure evs = true).
Proof.
  cbv zeta. destruct c as [args|op args|args|args|slot args|op other]; cbn [host_after bridges_at_once].
  - split; [|intros _]; apply init_bridges.
  - destruct op; cbn [mutator]; (split; [|intros _]);
      first [ apply add_vertices_bridges | apply delete_vertices_bridges
            | apply add_edges_bridges | apply delete_edges_bridges ].
  - split; [apply degree_bridges|done].
  - split; [|intros _]; apply get_adjacency_bridges.
  - split; [apply bfs_bridges|done].
  - split; [apply operator_bridges|done].
Qed.

(** C9, as the claim has it, fails: when [igraph_disjoint_union_many]
    refuses a directed and an undirected graph, the vector of graphs is
    destroyed first and the bridge is called after that. *)
Lemma bridge_counterexample :
  ¬ (∀ (E : NativeEngine) (c : binding_call) (self : Graph) (w : host),
       bridge_follows_failure (events_since w (host_after c self w)) = true).
Proof.
  intros H.
  specialize (H Reference.engine
                (Call_operator DisjointUnion (PyList [PyGraph triangle; PyGraph five]))
                triangle host0).
  revert H. vm_compute. discriminate.
Qed.

(** ** The attribute store stays aligned *)

Lemma arrays_of_length_empty (len : Z) : arrays_of_length len (PyDict ∅).
Proof. cbn. apply map_Forall_empty. Qed.

Lemma extend_array_length (len : Z) (k : nat) (v : PyObject) :
  array_of_length len v → array_of_length (len + Z.of_nat k) (extend_array k v).
Proof.
  destruct v; cbn; try done. intros <-. rewrite length_app, length_replicate. lia.
Qed.

Lemma permute_array_length (len : Z) (idx : list nat) (v : PyObject) :
  array_of_length len v → array_of_length (Z.of_nat (length idx)) (permute_array idx v).
Proof. destruct v; cbn; try done. intros _. by rewrite length_fmap. Qed.

Lemma map_dict_arrays (f : PyObject → PyObject) (len len' : Z) (d : PyObject) :
  (∀ v, array_of_length len v → array_of_length len' (f v)) →
  arrays_of_length len d → arrays_of_length len' (map_dict f d).
Proof.
  intros Hf. destruct d; cbn; try done.
  intros Hd. apply map_Forall_fmap. eapply map_Forall_impl; [exact Hd|].
  intros k v. apply Hf.
Qed.

Lemma arrays_of_length_lookup (len : Z) (d : PyObject) (key : string) (v : PyObject) :
  arrays_of_length len d → PyDict_GetItem d key = Some v →
  ∃ l, v = PyList l ∧ Z.of_nat (length l) = len.
Proof.
  destruct d; cbn; try done. intros Hd Hv. specialize (Hd key v Hv).
  destruct v; cbn in Hd; try done. by eexists.
Qed.

Lemma set_array_arrays (len : Z) (key : string) (values : list PyObject) (d d' : PyObject) :
  arrays_of_length len d → set_array len key values d = Some d' → arrays_of_length len d'.
Proof.
  destruct d; cbn; try done. intros Hd.
  destruct (Z.of_nat (length values) =? len) eqn:Hlen; [|done].
  intros [= <-]. cbn. apply map_Forall_insert_2; [|done]. cbn. lia.
Qed.

Lemma delete_array_arrays (len : Z) (key : string) (d d' : PyObject) :
  arrays_of_length len d → delete_array key d = Some d' → arrays_of_length len d'.
Proof.
  destruct d; cbn; try done. intros Hd. case_match; [|done].
  intros [= <-]. cbn. by apply map_Forall_delete.
Qed.

Lemma with_vertex_hash_aligned (self self' : Graph) (f : PyObject → option PyObject) :
  attr_aligned (g self) →
  (∀ d d', arrays_of_length (igraph_vcount (g self)) d → f d = Some d' →
           arrays_of_length (igraph_vcount (g self)) d') →
  with_vertex_hash self f = Some self' → attr_aligned (g self').
Proof.
  unfold with_vertex_hash, attr_aligned. intros Hal Hf.
  destruct (attr (g self)) as [a|]; [|done]. destruct Hal as [Hv He].
  destruct (f (hash_vertex a)) as [d|] eqn:Hd; [|done]. intros [= <-].
  cbn. split; [|done]. by eapply Hf.
Qed.

Lemma with_edge_hash_aligned (self self' : Graph) (f : PyObject → option PyObject) :
  attr_aligned (g self) →
  (∀ d d', arrays_of_length (igraph_ecount (g self)) d → f d = Some d' →
           arrays_of_length (igraph_ecount (g self)) d') →
  with_edge_hash self f = Some self' → attr_aligned (g self').
Proof.
  unfold with_edge_hash, attr_aligned. intros Hal Hf.
  destruct (attr (g self)) as [a|]; [|done]. destruct Hal as [Hv He].
  destruct (f (hash_edge a)) as [d|] eqn:Hd; [|done]. intros [= <-].
  cbn. split; [done|]. by eapply Hf.
Qed.

Lemma register_destructor_graph (self : Graph) (args : list PyObject) (w : host) :
  g (igraphmodule_Graph___register_destructor__ self args w).1.2 = g self.
Proof.
  unfold igraphmodule_Graph___register_destructor__.
  destruct args as [|d [|]]; run; try done.
  destruct (PyCallable_Check (Some d)); cbn [negb]; run; [|done].
  by destruct (destructor self).
Qed.

Lemma aligned_empty_hashes (nv : Z) (dir : bool) (es : list (Z * Z)) :
  attr_aligned (Igraph nv dir es (Some empty_hashes)).
Proof. split; apply arrays_of_length_empty. Qed.

Section Aligned.
Context {E : NativeEngine} (C : StructuralContract E).

Lemma aligned_of_empty_store (gr : igraph) :
attr gr = Some empty_hashes → attr_aligned gr.
Proof. unfold attr_aligned. intros ->. split; apply arrays_of_length_empty. Qed.

Lemma engine_add_vertices_aligned (gr gr' : igraph) (nv : Z) (st : igraph_status) :
0 ≤ nv → igraph_add_vertices gr nv = (st, gr') → attr_aligned gr → attr_aligned gr'.
Proof.
intros Hnv Hcall Hal. destruct st as [|e m].
- destruct (add_vertices_done _ _ _ Hnv Hcall) as (Hn & He & Ha).
  unfold attr_aligned, igraph_vcount, igraph_ecount in *. rewrite Ha, Hn, He.
  destruct (attr gr) as [a|]; [|done]. destruct Hal as [Hv Hed]. split; [|done].
  cbn. rewrite <- (Z2Nat.id nv) at 1 by done.
  eapply map_dict_arrays; [|exact Hv]. intros v. apply extend_array_length.
- by rewrite (add_vertices_failed _ _ _ _ _ Hcall).
Qed.

Lemma engine_add_edges_aligned (gr gr' : igraph) (v : list Z) (st : igraph_status) :
igraph_add_edges gr v = (st, gr') → attr_aligned gr → attr_aligned gr'.
Proof.
intros Hcall Hal. destruct st as [|e m].
- destruct (add_edges_done _ _ _ Hcall) as (k & Hn & He & Ha).
  unfold attr_aligned, igraph_vcount, igraph_ecount in *. rewrite Ha, Hn, He.
  destruct (attr gr) as [a|]; [|done]. destruct Hal as [Hv Hed]. split; [done|].
  cbn. rewrite Nat2Z.inj_add.
  eapply map_dict_arrays; [|exact Hed]. intros x. apply extend_array_length.
- by rewrite (add_edges_failed _ _ _ _ _ Hcall).
Qed.

Lemma engine_delete_vertices_aligned (gr gr' : igraph) (vs : igraph_vs_t) (st : igraph_status) :
igraph_delete_vertices gr vs = (st, gr') → attr_aligned gr → attr_aligned gr'.
Proof.
intros Hcall Hal. destruct st as [|e m].
- destruct (delete_vertices_done _ _ _ Hcall) as (vidx & eidx & Hn & He & Ha).
  unfold attr_aligned, igraph_vcount, igraph_ecount in *. rewrite Ha, Hn, He.
  destruct (attr gr) as [a|]; [|done]. destruct Hal as [Hv Hed]. split; cbn.
  + eapply map_dict_arrays; [|exact Hv]. intros x. apply permute_array_length.
  + eapply map_dict_arrays; [|exact Hed]. intros x. apply permute_array_length.
- by rewrite (delete_vertices_failed _ _ _ _ _ Hcall).
Qed.

Lemma engine_delete_edges_aligned (gr gr' : igraph) (es : igraph_es_t) (st : igraph_status) :
igraph_delete_edges gr es = (st, gr') → attr_aligned gr → attr_aligned gr'.
Proof.
intros Hcall Hal. destruct st as [|e m].
- destruct (delete_edges_done _ _ _ Hcall) as (eidx & Hn & He & Ha).
  unfold attr_aligned, igraph_vcount, igraph_ecount in *. rewrite Ha, Hn, He.
  destruct (attr gr) as [a|]; [|done]. destruct Hal as [Hv Hed]. split; [done|]. cbn.
  eapply map_dict_arrays; [|exact Hed]. intros x. apply permute_array_length.
- by rewrite (delete_edges_failed _ _ _ _ _ Hcall).
Qed.

Lemma add_vertices_aligned self args w :
attr_aligned (g self) → attr_aligned (g (igraphmodule_Graph_add_vertices self args w).1.2).
Proof.
intros Hal. unfold igraphmodule_Graph_add_vertices.
destruct args as [|a [|]]; run; try done.
destruct (parse_l a w) as [[nv|] w1]; run; try done.
destruct (nv <? 0) eqn:Hneg; run; try done.
apply Z.ltb_ge in Hneg.
destruct (igraph_add_vertices (g self) nv) as [st gr'] eqn:Hcall. run.
pose proof (engine_add_vertices_aligned _ _ _ _ Hneg Hcall Hal).
by destruct st.
Qed.

Lemma delete_vertices_aligned self args w :
attr_aligned (g self) → attr_aligned (g (igraphmodule_Graph_delete_vertices self args w).1.2).
Proof.
intros Hal. unfold igraphmodule_Graph_delete_vertices.
destruct args as [|a [|]]; run; try done.
destruct (igraphmodule_PyList_to_vector_t a true false w) as [[v|] w1]; run; try done.
destruct (igraph_delete_vertices (g self) (igraph_vss_vector v)) as [st gr'] eqn:Hcall. run.
pose proof (engine_delete_vertices_aligned _ _ _ _ Hcall Hal).
by destruct st.
Qed.

Lemma add_edges_aligned self args w :
attr_aligned (g self) → attr_aligned (g (igraphmodule_Graph_add_edges self args w).1.2).
Proof.
intros Hal. unfold igraphmodule_Graph_add_edges.
destruct args as [|a [|]]; run; try done.
destruct (igraphmodule_PyList_to_vector_t a true true _) as [[v|] w1]; run; try done.
destruct (igraph_add_edges (g self) v) as [st gr'] eqn:Hcall. run.
pose proof (engine_add_edges_aligned _ _ _ _ Hcall Hal).
by destruct st.
Qed.

Lemma delete_edges_aligned self args w :
attr_aligned (g self) → attr_aligned (g (igraphmodule_Graph_delete_edges self args w).1.2).
Proof.
intros Hal. unfold igraphmodule_Graph_delete_edges.
assert (∀ (sel : M (option igraph_es_t)) w,
  attr_aligned (g ((let* sel := sel in
    match sel with
    | None => ret (None, self)
    | Some es =>
        let r := igraph_delete_edges (g self) es in
        let* st := call_native fn_igraph_delete_edges [] r.1 in
        let self := set_g self r.2 in
        if failed st then
          igraphmodule_handle_igraph_error ;;;
          cleanup fn_igraph_es_destroy ;;;
          cleanup fn_igraph_vector_destroy ;;;
          ret (None, self)
        else
          emit (Py_Incref (PyGraph self)) ;;;
          cleanup fn_igraph_es_destroy ;;;
          cleanup fn_igraph_vector_destroy ;;;
          ret (Some (PyGraph self), self)
    end) w).1.2)) as Hsel.
{ intros sel w0. unfold bind at 1. destruct (sel w0) as [[es|] w1]; run; try done.
  destruct (igraph_delete_edges (g self) es) as [st gr'] eqn:Hcall. run.
  pose proof (engine_delete_edges_aligned _ _ _ _ Hcall Hal).
  by destruct st. }
destruct args as [|a [|b [|]]]; run; try done; apply Hsel.
Qed.

Lemma mutator_aligned op self args w :
attr_aligned (g self) → attr_aligned (g (mutator op self args w).1.2).
Proof.
destruct op; cbn [mutator];
  [apply add_vertices_aligned | apply delete_vertices_aligned
  | apply add_edges_aligned | apply delete_edges_aligned].
Qed.

Lemma init_aligned shell args w :
(igraphmodule_Graph_init shell args w).1.1 = 0 →
attr_aligned (g (igraphmodule_Graph_init shell args w).1.2).
Proof.
unfold igraphmodule_Graph_init. run.
destruct (parse_init_args args w) as [[[[nv [ed|]] dir]|] w1]; run; try done.
- destruct (igraphmodule_PyList_to_vector_t ed true true w1) as [[v|] w2]; run; try done.
  destruct (igraph_create v nv (is_Py_True dir)) as [gr|e m] eqn:Hcall; run; try done.
  intros _. apply aligned_of_empty_store. by eapply create_new.
- destruct (igraph_empty nv (is_Py_True dir)) as [gr|e m] eqn:Hcall; run; try done.
  intros _. apply aligned_of_empty_store. by eapply empty_new.
Qed.

Lemma reachable_aligned self : reachable self → attr_aligned (g self).
Proof.
induction 1 as [w0 w1 w2 shell self args Hnew Hinit
               |op w w' self self' args r Hr IH Hstep
               |self self' key values Hr IH Hstep
               |self self' key Hr IH Hstep
               |self self' key values Hr IH Hstep
               |self self' key Hr IH Hstep
               |w w' self self' args r Hr IH Hstep].
- pose proof (init_aligned shell args w1) as Hal. rewrite Hinit in Hal. by apply Hal.
- pose proof (mutator_aligned op self args w IH) as Hal. by rewrite Hstep in Hal.
- eapply with_vertex_hash_aligned; [exact IH| |exact Hstep]. apply set_array_arrays.
- eapply with_vertex_hash_aligned; [exact IH| |exact Hstep]. intros len. apply delete_array_arrays.
- eapply with_edge_hash_aligned; [exact IH| |exact Hstep]. apply set_array_arrays.
- eapply with_edge_hash_aligned; [exact IH| |exact Hstep]. intros len. apply delete_array_arrays.
- pose proof (register_destructor_graph self args w) as Hg. rewrite Hstep in Hg.
  cbn [fst snd] in Hg. by rewrite Hg.
Qed.
End Aligned.


(** ** The reference engine keeps the contracts *)

Lemma reference_structural : StructuralContract Reference.engine.
Proof.
  split; cbn [igraph_empty igraph_create igraph_add_vertices igraph_add_edges
              igraph_delete_vertices igraph_delete_edges Reference.engine].
  - intros nv d gr. unfold Reference.empty. case_match; [done|]. by intros [= <-].
  - intros v nv d gr. unfold Reference.create. repeat case_match; try done. by intros [= <-].
  - intros gr nv gr' Hnv. unfold Reference.add_vertices. case_match; [done|]. by intros [= <-].
  - intros gr v gr'. unfold Reference.add_edges. repeat case_match; try done.
    intros [= <-]. exists (length (Reference.pairs_of v)). cbn. rewrite length_app. by repeat split.
  - intros gr vs gr'. unfold Reference.delete_vertices. case_match; [done|].
    intros [= <-]. cbn.
    refine (ex_intro _ _ (ex_intro _ _ (conj _ (conj _ eq_refl)))); by rewrite !length_fmap.
  - intros gr es gr'. unfold Reference.delete_edges. destruct es; repeat case_match; try done.
    all: intros [= <-]; cbn;
      refine (ex_intro _ _ (conj eq_refl (conj _ eq_refl))); by rewrite !length_fmap.
  - intros gr nv e m gr'. unfold Reference.add_vertices. case_match; [|done]. by intros [= _ _ <-].
  - intros gr v e m gr'. unfold Reference.add_edges. repeat case_match; try done.
    all: by intros [= _ _ <-].
  - intros gr vs e m gr'. unfold Reference.delete_vertices. case_match; [|done]. by intros [= _ _ <-].
  - intros gr es e m gr'. unfold Reference.delete_edges. destruct es; repeat case_match; try done.
    all: by intros [= _ _ <-].
Qed.

Lemma in_range_valid (gr : igraph) (i : Z) :
  Reference.in_range (n gr) i = true ↔ valid_vid gr i.
Proof. unfold Reference.in_range, valid_vid, igraph_vcount. lia. Qed.

Lemma forallb_in_range (gr : igraph) (ids : list Z) :
  forallb (Reference.in_range (n gr)) ids = true ↔ Forall (valid_vid gr) ids.
Proof.
  rewrite forallb_forall, Forall_forall. split; intros H i Hi.
  - apply in_range_valid, H. by apply list_elem_of_In.
  - apply in_range_valid, H. by apply list_elem_of_In.
Qed.

Lemma reference_degree : DegreeContract Reference.engine.
Proof.
  split; [done|]. exists Reference.deg. intros gr vs mode loops Hmode Hvalid.
  cbn [igraph_degree Reference.engine]. unfold Reference.degree.
  apply forallb_in_range in Hvalid. rewrite Hvalid. cbn [negb].
  by destruct Hmode as [->|[->| ->]].
Qed.

Lemma path3_reachable : reachable (E := Reference.engine) path3.
Proof.
  eapply (reachable_new host0 host0 _ _ _
            [PyInt 3; PyList [PyTuple [PyInt 0; PyInt 1]; PyTuple [PyInt 1; PyInt 2]]]);
    reflexivity.
Qed.

Lemma named_path3_reachable : reachable (E := Reference.engine) named_path3.
Proof.
  eapply (reachable_edge_set _ _ "weight" [PyInt 7; PyInt 9]);
    [eapply (reachable_vertex_set _ _ "name" [PyString "a"; PyString "b"; PyString "c"]);
       [exact path3_reachable|reflexivity]|].
  reflexivity.
Qed.

(** What the deletion of the two end vertices leaves of the named path:
    the vertex in the middle with its name, and no edge, the array of
    weights being empty. *)
Lemma named_path3_middle :
  g (mutator (E := Reference.engine) DeleteVertices named_path3
       [PyList [PyInt 0; PyInt 2]] host0).1.2
  = Igraph 1 false []
      (Some (AttrHashes (PyDict ∅)
               (PyDict {[ "name"%string := PyList [PyString "b"] ]})
               (PyDict {[ "weight"%string := PyList [] ]}))).
Proof. by vm_compute. Qed.


(** ** Scalar and list selectors *)

(** C5: [degree] of a single valid index is one integer; of the list of
    that index alone it is the list of that integer; of a list of valid
    indices it is a list of the same length. *)
Theorem degree_scalar_and_list {E : NativeEngine}
    (self : Graph) (i : Z) (ids : list Z) (w : host) :
  DegreeContract E → valid_vid (g self) i → Forall (valid_vid (g self)) ids →
  ∃ d ds,
    (igraphmodule_Graph_degree self [PyInt i] w).1 = Some (PyInt d)
    ∧ (igraphmodule_Graph_degree self [PyList [PyInt i]] w).1 = Some (PyList [PyInt d])
    ∧ (igraphmodule_Graph_degree self [PyList (PyInt <$> ids)] w).1 = Some (PyList (PyInt <$> ds))
    ∧ length ds = length ids.
Proof.
  intros [Hinit (deg & Hdeg)] Hi Hids.
  assert (valid_mode IGRAPH_ALL) as Hmode by (right; by right).
  exists (deg (g self) IGRAPH_ALL false i), (deg (g self) IGRAPH_ALL false <$> ids).
  unfold igraphmodule_Graph_degree, parse_degree_args, igraphmodule_PyObject_to_vs_t.
  run. change (negb (IGRAPH_ALL =? IGRAPH_ALL)) with false. cbn [andb].
  rewrite mapM_as_int. cbn [mapM as_int mbind option_bind mret option_ret].
  run. rewrite Hinit. run.
  rewrite !Hdeg
    by first [ exact Hmode | cbn [vs_ids]; first [ exact Hids | by apply Forall_singleton ] ].
  run. cbn [vs_ids negb VECTOR_0 head default list_fmap igraphmodule_vector_t_to_PyList].
  repeat split. by rewrite length_fmap.
Qed.

(** C5 on the triangle. *)
Lemma degree_scalar_and_list_witness :
  ∃ d ds,
    (igraphmodule_Graph_degree (E := Reference.engine) triangle [PyInt 2] host0).1 = Some (PyInt d)
    ∧ (igraphmodule_Graph_degree (E := Reference.engine) triangle [PyList [PyInt 2]] host0).1
      = Some (PyList [PyInt d])
    ∧ (igraphmodule_Graph_degree (E := Reference.engine) triangle
         [PyList (PyInt <$> [0; 2; 2])] host0).1 = Some (PyList (PyInt <$> ds))
    ∧ length ds = length [0; 2; 2].
Proof.
  apply (degree_scalar_and_list (E := Reference.engine) triangle 2 [0; 2; 2] host0).
  - exact reference_degree.
  - unfold valid_vid, igraph_vcount. cbn. lia.
  - repeat constructor; unfold valid_vid, igraph_vcount; cbn; lia.
Defined.


(** * Further properties of the binding *)

(** ** More on the life cycle *)

Lemma clear_events (self : Graph) (w : host) :
  events_since w (igraphmodule_Graph_clear self w).2 =
    [GC_UnTrack]
    ++ (Py_Decref <$> option_list (vseq self))
    ++ (Py_Decref <$> option_list (eseq self))
    ++ (Py_Decref <$> option_list (destructor self)).
Proof.
  destruct self as [gr [d|] [v|] [e|] wr]; unfold igraphmodule_Graph_clear;
    cbn [weakreflist destructor vseq eseq g]; run; since; reflexivity.
Qed.

Lemma clear_handle (self : Graph) (w : host) :
  (igraphmodule_Graph_clear self w).1 = (0, GraphObject (g self) None None None (weakreflist self)).
Proof.
  destruct self as [gr [d|] [v|] [e|] wr]; unfold igraphmodule_Graph_clear;
    cbn [weakreflist destructor vseq eseq g]; run; reflexivity.
Qed.

(** X1: [tp_clear] drops the references to the two cached views and to
    the finalizer, each exactly once and without calling the finalizer,
    and leaves the native graph alone; clearing again releases nothing. *)
Theorem clear_is_idempotent (self : Graph) (w : host) :
  let r := igraphmodule_Graph_clear self w in
  let r' := igraphmodule_Graph_clear r.1.2 r.2 in
  r.1.1 = 0
  ∧ g r.1.2 = g self
  ∧ vseq r.1.2 = None ∧ eseq r.1.2 = None ∧ destructor r.1.2 = None
  ∧ List.filter is_reference_release (events_since w r.2)
    = Py_Decref <$> (option_list (vseq self) ++ option_list (eseq self)
                     ++ option_list (destructor self))
  ∧ existsb is_finalizer_call (events_since w r.2) = false
  ∧ r'.1 = r.1
  ∧ events_since r.2 r'.2 = [GC_UnTrack].
Proof.
  cbv zeta. rewrite !clear_events, !clear_handle.
  destruct self as [gr [d|] [v|] [e|] wr]; cbn [weakreflist destructor vseq eseq g];
    repeat split; reflexivity.
Qed.

(** X2: once the collector has cleared a handle, deallocation calls no
    finalizer and releases no reference, whatever was registered; the native
    graph is still released. *)
Theorem dealloc_after_clear (self : Graph) (w : host) :
  let cleared := igraphmodule_Graph_clear self w in
  let evs := events_since cleared.2 (igraphmodule_Graph_dealloc cleared.1.2 cleared.2).2 in
  existsb is_finalizer_call evs = false
  ∧ existsb is_reference_release evs = false
  ∧ length (List.filter is_native_release evs) = 1%nat.
Proof.
  cbv zeta. rewrite dealloc_events, clear_handle.
  cbn [fst snd weakreflist destructor vseq eseq g PyCallable_Check option_list fmap list_fmap app].
  destruct (weakreflist self); repeat split; reflexivity.
Qed.

(** X3: registering something that cannot be called is refused with a
    type error; the handle keeps the finalizer it had and nothing else
    happens. *)
Theorem register_destructor_not_callable (self : Graph) (d : PyObject) (w : host) :
  PyCallable_Check (Some d) = false →
  let r := igraphmodule_Graph___register_destructor__ self [d] w in
  r.1 = (None, self)
  ∧ py_err r.2 = Some (PyExc_TypeError, "The destructor must be callable!"%string)
  ∧ events_since w r.2 = [PyErr_Set PyExc_TypeError "The destructor must be callable!"].
Proof.
  intros Hc. cbv zeta. unfold igraphmodule_Graph___register_destructor__.
  rewrite Hc. cbn [negb]. run. repeat split. by since.
Qed.

Lemma register_destructor_not_callable_witness :
  let r := igraphmodule_Graph___register_destructor__ sample [PyInt 7] host0 in
  r.1 = (None, sample)
  ∧ py_err r.2 = Some (PyExc_TypeError, "The destructor must be callable!"%string)
  ∧ events_since host0 r.2 = [PyErr_Set PyExc_TypeError "The destructor must be callable!"].
Proof.
  apply (register_destructor_not_callable sample (PyInt 7) host0). reflexivity.
Defined.

(** X4: registering a callable puts it in the place of the finalizer the
    handle had, which is handed back ([None] when there was none) and is
    not called; when the handle is deallocated afterwards, the new
    finalizer is the one that is called, once. *)
Theorem register_destructor_replaces (self : Graph) (d : PyObject) (w : host) :
  PyCallable_Check (Some d) = true →
  let r := igraphmodule_Graph___register_destructor__ self [d] w in
  r.1.1 = Some (default Py_None (destructor self))
  ∧ r.1.2 = GraphObject (g self) (Some d) (vseq self) (eseq self) (weakreflist self)
  ∧ py_err r.2 = py_err w
  ∧ events_since w r.2 = [Py_Incref d]
  ∧ List.filter is_finalizer_call
      (events_since r.2 (igraphmodule_Graph_dealloc r.1.2 r.2).2) = [PyCall d].
Proof.
  intros Hc. cbv zeta. rewrite dealloc_events.
  unfold igraphmodule_Graph___register_destructor__. rewrite Hc. cbn [negb]. run.
  destruct self as [gr [d0|] [v|] [e|] [wr|]]; cbn [weakreflist destructor vseq eseq g];
    run; cbn [weakreflist destructor vseq eseq g]; rewrite Hc;
    repeat split; by since.
Qed.

Lemma register_destructor_replaces_witness :
  let r := igraphmodule_Graph___register_destructor__ sample [PyFunction "other"] host0 in
  r.1.1 = Some (default Py_None (destructor sample))
  ∧ r.1.2 = GraphObject (g sample) (Some (PyFunction "other")) (vseq sample) (eseq sample)
              (weakreflist sample)
  ∧ py_err r.2 = py_err host0
  ∧ events_since host0 r.2 = [Py_Incref (PyFunction "other")]
  ∧ List.filter is_finalizer_call
      (events_since r.2 (igraphmodule_Graph_dealloc r.1.2 r.2).2) = [PyCall (PyFunction "other")].
Proof.
  apply (register_destructor_replaces sample (PyFunction "other") host0). reflexivity.
Defined.

(** ** Outcomes of the constructor and of the mutators *)

(** A call that gives [NULL] leaves an exception behind; one that gives a
    value leaves the pending exception as it was. *)
Ltac outcome :=
  solve [ left; repeat split; try reflexivity; eexists; reflexivity
        | right; repeat split; try reflexivity; eexists; reflexivity ].

(** Case analysis as in [branch], for goals that speak of the result of the
    call as well as of the state. *)
Ltac split_step :=
  match goal with
  | |- context [fst ?x] =>
      lazymatch type of x with
      | (igraph_status * _)%type => destruct x
      end
  | |- context [failed ?x] => destruct x
  | |- context [match ?x with _ => _ end] =>
      lazymatch type of x with
      | (_ * host)%type => fail
      | _ => destruct x
      end
  end; run.

Ltac explore tac := run; repeat first [ tac | split_step ].

Lemma init_succeeds_or_fails_aux {E : NativeEngine}
    (shell : Graph) (args : list PyObject) (w : host) :
  let r := igraphmodule_Graph_init shell args w in
  (r.1.1 = 0 ∧ py_err r.2 = py_err w ∧ ∃ gr, r.1.2 = set_g shell gr)
  ∨ (r.1.1 = -1 ∧ r.1.2 = shell ∧ ∃ e, py_err r.2 = Some e).
Proof.
  cbv zeta.
  unfold igraphmodule_Graph_init, parse_init_args, igraphmodule_PyList_to_vector_t,
    parse_i, parse_integer.
  explore outcome.
Qed.


(** X6: called with positional arguments and no list of edges, that is
    with nothing or with the number of vertices alone, the constructor
    makes one native call, [igraph_empty], for an undirected graph of the
    number of vertices given, which is 1 when nothing is given. *)
Theorem init_without_edges {E : NativeEngine} (shell : Graph) (nv : Z) (w : host) :
  INT_MIN ≤ nv ≤ INT_MAX →
  native_calls (events_since w (igraphmodule_Graph_init shell [] w).2)
    = [Native fn_igraph_empty [1] (status_of (igraph_empty 1 false))]
  ∧ native_calls (events_since w (igraphmodule_Graph_init shell [PyInt nv] w).2)
    = [Native fn_igraph_empty [nv] (status_of (igraph_empty nv false))]
  ∧ (∀ gr, igraph_empty nv false = Done gr →
       (igraphmodule_Graph_init shell [PyInt nv] w).1 = (0, set_g shell gr)).
Proof.
  intros Hnv.
  unfold igraphmodule_Graph_init, parse_init_args, parse_i, parse_integer.
  assert ((INT_MIN <=? nv) && (nv <=? INT_MAX) = true) as -> by lia.
  run. cbn [is_Py_True Py_False].
  split; [|split].
  - destruct (igraph_empty 1 false); run; since; reflexivity.
  - destruct (igraph_empty nv false); run; since; reflexivity.
  - intros gr ->. reflexivity.
Qed.

Lemma init_without_edges_witness :
  native_calls (events_since host0
     (igraphmodule_Graph_init (E := Reference.engine) blank [] host0).2)
    = [Native fn_igraph_empty [1] (status_of (igraph_empty (NativeEngine := Reference.engine) 1 false))]
  ∧ native_calls (events_since host0
       (igraphmodule_Graph_init (E := Reference.engine) blank [PyInt 5] host0).2)
    = [Native fn_igraph_empty [5] (status_of (igraph_empty (NativeEngine := Reference.engine) 5 false))]
  ∧ (∀ gr, igraph_empty (NativeEngine := Reference.engine) 5 false = Done gr →
       (igraphmodule_Graph_init (E := Reference.engine) blank [PyInt 5] host0).1
       = (0, set_g blank gr)).
Proof.
  apply (init_without_edges (E := Reference.engine) blank 5 host0).
  unfold INT_MIN, INT_MAX. lia.
Defined.

(** X7: a structural mutator never fails silently and never returns
    another object: it gives [NULL] with an exception pending, or the
    handle itself in its new state with the pending exception untouched. *)
Theorem mutator_result {E : NativeEngine}
    (op : structural_op) (self : Graph) (args : list PyObject) (w : host) :
  let r := mutator op self args w in
  (r.1.1 = None ∧ ∃ e, py_err r.2 = Some e)
  ∨ (r.1.1 = Some (PyGraph r.1.2) ∧ py_err r.2 = py_err w).
Proof.
  cbv zeta. destruct op; cbn [mutator];
    unfold igraphmodule_Graph_add_vertices, igraphmodule_Graph_delete_vertices,
      igraphmodule_Graph_add_edges, igraphmodule_Graph_delete_edges,
      igraphmodule_PyList_to_vector_t, parse_l, parse_integer.
  all: explore outcome.
Qed.

Lemma mutator_frame {E : NativeEngine}
    (op : structural_op) (self : Graph) (args : list PyObject) (w : host) :
  let self' := (mutator op self args w).1.2 in
  destructor self' = destructor self ∧ vseq self' = vseq self
  ∧ eseq self' = eseq self ∧ weakreflist self' = weakreflist self.
Proof.
  cbv zeta. destruct op; cbn [mutator];
    unfold igraphmodule_Graph_add_vertices, igraphmodule_Graph_delete_vertices,
      igraphmodule_Graph_add_edges, igraphmodule_Graph_delete_edges,
      igraphmodule_PyList_to_vector_t, parse_l, parse_integer.
  all: explore ltac:(solve [repeat split; reflexivity]).
Qed.

(** X8: a structural mutator changes the native graph of the handle and
    nothing else: the finalizer, the cached views and the weak references
    are the ones the handle had. *)
Theorem mutator_keeps_references {E : NativeEngine}
    (op : structural_op) (self : Graph) (args : list PyObject) (w : host) :
  let self' := (mutator op self args w).1.2 in
  destructor self' = destructor self ∧ vseq self' = vseq self
  ∧ eseq self' = eseq self ∧ weakreflist self' = weakreflist self.
Proof. apply mutator_frame. Qed.

(** ** Buffers and references on every path *)

(** X9: in [delete_vertices], [add_edges] and [delete_edges] the buffer of
    the converted list is destroyed exactly once on every path that reached
    the engine, and never otherwise; [add_vertices] has no buffer. *)
Theorem mutator_destroys_buffer_once {E : NativeEngine}
    (op : structural_op) (self : Graph) (args : list PyObject) (w : host) :
  let evs := events_since w (mutator op self args w).2 in
  length (List.filter is_vector_destroy evs)
  = match op, native_calls evs with
    | AddVertices, _ | _, [] => 0%nat
    | _, _ => 1%nat
    end.
Proof.
  cbv zeta. destruct op; cbn [mutator];
    unfold igraphmodule_Graph_add_vertices, igraphmodule_Graph_delete_vertices,
      igraphmodule_Graph_add_edges, igraphmodule_Graph_delete_edges,
      igraphmodule_PyList_to_vector_t, parse_l, parse_integer.
  all: explore ltac:(solve [since; reflexivity]).
Qed.

(** X10: [add_edges] takes a reference on its argument at entry and gives
    it back exactly once on every path, before it returns. *)
Theorem add_edges_releases_list {E : NativeEngine} (self : Graph) (lst : PyObject) (w : host) :
  let evs := events_since w (igraphmodule_Graph_add_edges self [lst] w).2 in
  head evs = Some (Py_Incref lst)
  ∧ List.filter is_reference_release evs = [Py_Decref lst].
Proof.
  cbv zeta. unfold igraphmodule_Graph_add_edges, igraphmodule_PyList_to_vector_t.
  explore ltac:(solve [since; split; reflexivity]).
Qed.

(** X11: when [igraph_create] fails in the constructor, the buffer of the
    converted edge list is not destroyed; it is destroyed, once, when the
    call succeeds. *)
Theorem init_destroys_buffer_on_success_only {E : NativeEngine}
    (shell : Graph) (nv : Z) (l : list PyObject) (d : bool) (w : host) :
  let evs := events_since w
               (igraphmodule_Graph_init shell [PyInt nv; PyList l; PyBool d] w).2 in
  length (List.filter is_vector_destroy evs)
  = match native_calls evs with
    | [Native fn_igraph_create _ IGRAPH_SUCCESS] => 1%nat
    | _ => 0%nat
    end.
Proof.
  cbv zeta.
  unfold igraphmodule_Graph_init, parse_init_args, igraphmodule_PyList_to_vector_t,
    parse_i, parse_integer.
  explore ltac:(solve [since; reflexivity]).
Qed.

(** ** Queries: arguments and allocation *)

Lemma to_vs_t_pure (sel : PyObject) (vs : igraph_vs_t) (single : bool) (w w' : host) :
  (igraphmodule_PyObject_to_vs_t sel w).1 = Some (vs, single) →
  igraphmodule_PyObject_to_vs_t sel w' = (Some (vs, single), w').
Proof.
  unfold igraphmodule_PyObject_to_vs_t.
  destruct sel; run; try done; try (by intros [= <- <-]).
  destruct (mapM as_int items); run; [by intros [= <- <-]|done].
Qed.

(** X12: a neighbourhood type that is none of [OUT], [IN] and [ALL] is
    refused by [degree], and an adjacency type that is none of the three
    known is refused by [get_adjacency], with a value error and before any
    native call, whatever the other arguments are. *)
Theorem bad_type_is_refused {E : NativeEngine}
    (self : Graph) (sel loops : PyObject) (dtype t : Z) (w : host) :
  INT_MIN ≤ dtype ≤ INT_MAX → INT_MIN ≤ t ≤ INT_MAX →
  ¬ valid_mode dtype →
  t ≠ IGRAPH_GET_ADJACENCY_UPPER → t ≠ IGRAPH_GET_ADJACENCY_LOWER →
  t ≠ IGRAPH_GET_ADJACENCY_BOTH →
  let r := igraphmodule_Graph_degree self [sel; PyInt dtype; loops] w in
  let r' := igraphmodule_Graph_get_adjacency self [PyInt t] w in
  r.1 = None
  ∧ events_since w r.2 = [PyErr_Set PyExc_ValueError "dtype should be either ALL or IN or OUT"]
  ∧ r'.1 = None
  ∧ ∃ msg, events_since w r'.2 = [PyErr_Set PyExc_ValueError msg].
Proof.
  intros Hd Ht Hmode H1 H2 H3. cbv zeta.
  unfold igraphmodule_Graph_degree, parse_degree_args, igraphmodule_Graph_get_adjacency,
    parse_i, parse_integer.
  assert ((INT_MIN <=? dtype) && (dtype <=? INT_MAX) = true) as -> by lia.
  assert ((INT_MIN <=? t) && (t <=? INT_MAX) = true) as -> by lia.
  run.
  assert (negb (dtype =? IGRAPH_ALL) && negb (dtype =? IGRAPH_OUT) && negb (dtype =? IGRAPH_IN)
          = true) as ->.
  { unfold valid_mode in Hmode. lia. }
  assert (negb (t =? IGRAPH_GET_ADJACENCY_UPPER) && negb (t =? IGRAPH_GET_ADJACENCY_LOWER)
          && negb (t =? IGRAPH_GET_ADJACENCY_BOTH) = true) as -> by lia.
  run. repeat split; [by since|]. eexists. by since.
Qed.

Lemma bad_type_is_refused_witness :
  let r := igraphmodule_Graph_degree (E := Reference.engine) triangle
             [Py_None; PyInt 7; Py_False] host0 in
  let r' := igraphmodule_Graph_get_adjacency (E := Reference.engine) triangle [PyInt 7] host0 in
  r.1 = None
  ∧ events_since host0 r.2
    = [PyErr_Set PyExc_ValueError "dtype should be either ALL or IN or OUT"]
  ∧ r'.1 = None
  ∧ ∃ msg, events_since host0 r'.2 = [PyErr_Set PyExc_ValueError msg].
Proof.
  apply (bad_type_is_refused (E := Reference.engine) triangle Py_None Py_False 7 7 host0);
    first [ unfold INT_MIN, INT_MAX; lia
          | unfold valid_mode, IGRAPH_OUT, IGRAPH_IN, IGRAPH_ALL; lia
          | discriminate ].
Defined.

(** X13: when the result vector of [degree] cannot be set up, the call
    gives [NULL] without raising anything: the error bridge is not called
    and the pending exception is what it was; the selector is destroyed and
    [igraph_degree] is not called. *)
Theorem degree_allocation_failure_is_silent {E : NativeEngine}
    (self : Graph) (sel : PyObject) (vs : igraph_vs_t) (single : bool)
    (e : Z) (m : string) (w : host) :
  (igraphmodule_PyObject_to_vs_t sel w).1 = Some (vs, single) →
  igraph_vector_init 0 = IGRAPH_FAILURE e m →
  let r := igraphmodule_Graph_degree self [sel] w in
  r.1 = None
  ∧ py_err r.2 = py_err w
  ∧ events_since w r.2
    = [Native fn_igraph_vector_init [0] (IGRAPH_FAILURE e m); Cleanup fn_igraph_vs_destroy].
Proof.
  intros Hsel Hinit. cbv zeta.
  unfold igraphmodule_Graph_degree, parse_degree_args. run.
  change (negb (IGRAPH_ALL =? IGRAPH_ALL)) with false. cbn [andb].
  rewrite (to_vs_t_pure _ _ _ _ _ Hsel). rewrite Hinit. run.
  repeat split. by since.
Qed.

Lemma degree_allocation_failure_is_silent_witness :
  let r := igraphmodule_Graph_degree (E := out_of_memory_engine) triangle [PyInt 1] host0 in
  r.1 = None
  ∧ py_err r.2 = py_err host0
  ∧ events_since host0 r.2
    = [Native fn_igraph_vector_init [0]
         (IGRAPH_FAILURE Reference.IGRAPH_ENOMEM "out of memory");
       Cleanup fn_igraph_vs_destroy].
Proof.
  apply (degree_allocation_failure_is_silent (E := out_of_memory_engine) triangle (PyInt 1)
           (igraph_vs_1 1) true Reference.IGRAPH_ENOMEM "out of memory" host0);
    reflexivity.
Defined.

(** X14: [bfs] does not stop when its vectors cannot be set up: once the
    number read back from [vid] has passed the check, it raises the memory
    error and goes on to call [igraph_bfs] with that number; when that call
    succeeds, the result is returned with the memory error still pending. *)
Theorem bfs_goes_on_without_memory {E : NativeEngine}
    (self : Graph) (slot vid mode : Z) (e : Z) (m : string)
    (res : list Z * list Z * list Z) (w : host) :
  INT_MIN ≤ vid ≤ INT_MAX → INT_MIN ≤ mode ≤ INT_MAX →
  0 ≤ int_into_long slot vid ≤ igraph_vcount (g self) →
  igraph_vector_init (igraph_vcount (g self)) = IGRAPH_FAILURE e m →
  igraph_bfs (g self) (int_into_long slot vid) mode = Done res →
  let r := igraphmodule_Graph_bfs self slot [PyInt vid; PyInt mode] w in
  r.1 = Some (PyTuple [igraphmodule_vector_t_to_PyList res.1.1;
                       igraphmodule_vector_t_to_PyList res.1.2;
                       igraphmodule_vector_t_to_PyList res.2])
  ∧ py_err r.2 = Some (PyExc_MemoryError, "not enough memory"%string)
  ∧ List.filter is_native_call (events_since w r.2)
    = [Native fn_igraph_vector_init [igraph_vcount (g self)] (IGRAPH_FAILURE e m);
       Native fn_igraph_vector_init [igraph_vcount (g self)] (IGRAPH_FAILURE e m);
       Native fn_igraph_vector_init [igraph_vcount (g self)] (IGRAPH_FAILURE e m);
       Native fn_igraph_bfs [int_into_long slot vid; mode] IGRAPH_SUCCESS].
Proof.
  intros Hv Hm Hroot Hinit Hbfs. cbv zeta.
  unfold igraphmodule_Graph_bfs, bfs_vector_init, parse_i, parse_integer.
  assert ((INT_MIN <=? vid) && (vid <=? INT_MAX) = true) as -> by lia.
  run.
  assert ((INT_MIN <=? mode) && (mode <=? INT_MAX) = true) as -> by lia.
  run. revert Hroot Hbfs. generalize (int_into_long slot vid). intros root Hroot Hbfs.
  assert ((root <? 0) || (igraph_vcount (g self) <? root) = false) as -> by lia.
  run. rewrite Hinit, Hbfs. destruct res as [[vids layers] parents]. run.
  repeat split. by since.
Qed.

Lemma bfs_goes_on_without_memory_witness :
  let r := igraphmodule_Graph_bfs (E := out_of_memory_engine) triangle 0 [PyInt 0; PyInt 1] host0 in
  r.1 = Some (PyTuple [igraphmodule_vector_t_to_PyList [0; 1; 2];
                       igraphmodule_vector_t_to_PyList [0; 1; 2; 3];
                       igraphmodule_vector_t_to_PyList [0; 0; 1]])
  ∧ py_err r.2 = Some (PyExc_MemoryError, "not enough memory"%string)
  ∧ List.filter is_native_call (events_since host0 r.2)
    = [Native fn_igraph_vector_init [igraph_vcount (g triangle)]
         (IGRAPH_FAILURE Reference.IGRAPH_ENOMEM "out of memory");
       Native fn_igraph_vector_init [igraph_vcount (g triangle)]
         (IGRAPH_FAILURE Reference.IGRAPH_ENOMEM "out of memory");
       Native fn_igraph_vector_init [igraph_vcount (g triangle)]
         (IGRAPH_FAILURE Reference.IGRAPH_ENOMEM "out of memory");
       Native fn_igraph_bfs [int_into_long 0 0; 1] IGRAPH_SUCCESS].
Proof.
  apply (bfs_goes_on_without_memory (E := out_of_memory_engine) triangle 0 0 1
           Reference.IGRAPH_ENOMEM "out of memory" ([0; 1; 2], [0; 1; 2; 3], [0; 0; 1]) host0);
    first [ reflexivity | unfold INT_MIN, INT_MAX; lia | vm_compute; split; discriminate ].
Defined.

(** ** Operators: the handle and the host's memory *)

(** X15: when the host has no memory for the new handle, an n-ary
    operator on a graph gives [NULL] after the engine has built the result,
    with the [MemoryError] of the allocator pending; the graph the engine
    built is not destroyed, and the error bridge is not called. *)
Theorem operator_allocation_failure {E : NativeEngine}
    (op : nary_operator) (self o : Graph) (gr : igraph) (w : host) :
  alloc_ok w = false →
  binary_engine op (g self) (g o) = Done gr →
  let r := operator_method op self (PyGraph o) w in
  r.1 = None ∧ py_err r.2 = Some (PyExc_MemoryError, EmptyString)
  ∧ events_since w r.2
    = [PyErr_Cleared; Native (binary_fn op) [] IGRAPH_SUCCESS;
       PyErr_Set PyExc_MemoryError EmptyString].
Proof.
  intros Halloc Hcall. cbv zeta.
  destruct op; cbn [operator_method binary_engine binary_fn] in *;
    unfold igraphmodule_Graph_disjoint_union, igraphmodule_Graph_union,
      igraphmodule_Graph_intersection, graph_operator, wrap_result, tp_alloc;
    cbn [PyObject_GetIter PyObject_TypeCheck_Graph]; run; rewrite Hcall; run;
    rewrite Halloc; run; repeat split; by since.
Qed.

Lemma operator_allocation_failure_witness :
  let r := operator_method (E := Reference.engine) Union triangle (PyGraph triangle)
             host_without_memory in
  r.1 = None ∧ py_err r.2 = Some (PyExc_MemoryError, EmptyString)
  ∧ events_since host_without_memory r.2
    = [PyErr_Cleared; Native (binary_fn Union) [] IGRAPH_SUCCESS;
       PyErr_Set PyExc_MemoryError EmptyString].
Proof.
  eapply (operator_allocation_failure (E := Reference.engine) Union triangle triangle _
            host_without_memory); reflexivity.
Defined.

(** X16: given an iterable, an n-ary operator takes its operands from the
    items alone: the native graph of the handle it is called on is not
    among them, and with any other graph in its place the call does the
    same and returns the same. *)
Theorem operator_on_iterable_leaves_out_receiver {E : NativeEngine}
    (op : nary_operator) (self : Graph) (gr : igraph) (other : PyObject) (w : host) :
  is_Some (PyObject_GetIter other) →
  operator_method op (set_g self gr) other w = operator_method op self other w.
Proof.
  intros [it Hit].
  destruct op; cbn [operator_method];
    unfold igraphmodule_Graph_disjoint_union, igraphmodule_Graph_union,
      igraphmodule_Graph_intersection, graph_operator; by rewrite Hit.
Qed.

Lemma operator_on_iterable_leaves_out_receiver_witness :
  operator_method (E := Reference.engine) DisjointUnion (set_g triangle (g sample))
    (PyList [PyGraph five]) host0
  = operator_method (E := Reference.engine) DisjointUnion triangle (PyList [PyGraph five]) host0.
Proof.
  apply (operator_on_iterable_leaves_out_receiver (E := Reference.engine) DisjointUnion
           triangle (g sample) (PyList [PyGraph five]) host0).
  by eexists.
Defined.

(** ** Graph attributes *)

(** X17: an attribute that has been set is what a lookup of its name
    gives back, a reference to it being taken; the other names are looked up
    as before, and the number of attributes grows by one exactly when the
    name is new. *)
Theorem get_attribute_after_set (dict : gmap string PyObject) (k k' : string) (v : PyObject)
    (w w' : host) :
  alloc_ok w = true → k' ≠ k →
  let s := igraphmodule_Graph_set_attribute dict k (Some v) w in
  s.1.1 = 0
  ∧ (igraphmodule_Graph_get_attribute s.1.2 k w').1 = Some v
  ∧ events_since w' (igraphmodule_Graph_get_attribute s.1.2 k w').2 = [Py_Incref v]
  ∧ igraphmodule_Graph_get_attribute s.1.2 k' w' = igraphmodule_Graph_get_attribute dict k' w'
  ∧ igraphmodule_Graph_attribute_count s.1.2
    = igraphmodule_Graph_attribute_count dict + (if dict !! k is Some _ then 0 else 1).
Proof.
  intros Halloc Hne. cbv zeta. unfold igraphmodule_Graph_set_attribute. run. rewrite Halloc.
  cbn [fst snd]. unfold igraphmodule_Graph_get_attribute, igraphmodule_Graph_attribute_count.
  rewrite lookup_insert_eq. run. repeat split.
  - by since.
  - by rewrite lookup_insert_ne.
  - destruct (dict !! k) eqn:Hk.
    + rewrite map_size_insert_Some by done. lia.
    + rewrite map_size_insert_None by done. lia.
Qed.

Lemma get_attribute_after_set_witness :
  let s := igraphmodule_Graph_set_attribute ∅ "title" (Some (PyString "sample")) host0 in
  s.1.1 = 0
  ∧ (igraphmodule_Graph_get_attribute s.1.2 "title" host0).1 = Some (PyString "sample")
  ∧ events_since host0 (igraphmodule_Graph_get_attribute s.1.2 "title" host0).2
    = [Py_Incref (PyString "sample")]
  ∧ igraphmodule_Graph_get_attribute s.1.2 "name" host0
    = igraphmodule_Graph_get_attribute ∅ "name" host0
  ∧ igraphmodule_Graph_attribute_count s.1.2
    = igraphmodule_Graph_attribute_count ∅
      + (if (∅ : gmap string PyObject) !! "title"%string is Some _ then 0 else 1).
Proof.
  apply (get_attribute_after_set ∅ "title" "name" (PyString "sample") host0 host0).
  - reflexivity.
  - discriminate.
Defined.

(** X18: looking up a name that is not there gives [NULL] and raises a
    key error, unless an exception is pending already, which is then left in
    place; nothing is logged but the error raised. *)
Theorem get_attribute_missing (dict : gmap string PyObject) (s : string) (w : host) :
  dict !! s = None →
  let r := igraphmodule_Graph_get_attribute dict s w in
  r.1 = None
  ∧ py_err r.2 = Some (default (PyExc_KeyError, "Attribute does not exist"%string) (py_err w))
  ∧ existsb is_reference_gain (events_since w r.2) = false.
Proof.
  intros Hs. cbv zeta. unfold igraphmodule_Graph_get_attribute. rewrite Hs.
  destruct (py_err w) as [e|] eqn:Hw; run.
  - repeat split; [done|]. unfold events_since. by rewrite drop_all.
  - repeat split. by since.
Qed.

Lemma get_attribute_missing_witness :
  let r := igraphmodule_Graph_get_attribute ∅ "title" host0 in
  r.1 = None
  ∧ py_err r.2 = Some (default (PyExc_KeyError, "Attribute does not exist"%string) (py_err host0))
  ∧ existsb is_reference_gain (events_since host0 r.2) = false.
Proof.
  apply (get_attribute_missing ∅ "title" host0). reflexivity.
Defined.

(** X19: setting an attribute to [NULL] deletes it: when the name is
    there, the call returns 0, the name is gone afterwards and the other
    names are untouched; when it is not there, the call returns -1 with a
    key error and the dictionary is as before. *)
Theorem set_attribute_null_deletes (dict : gmap string PyObject) (k : string) (w : host) :
  let r := igraphmodule_Graph_set_attribute dict k None w in
  match dict !! k with
  | Some _ => r.1.1 = 0 ∧ r.1.2 !! k = None ∧ py_err r.2 = py_err w
              ∧ (∀ k', k' ≠ k → r.1.2 !! k' = dict !! k')
              ∧ igraphmodule_Graph_attribute_count r.1.2
                = igraphmodule_Graph_attribute_count dict - 1
  | None => r.1 = (-1, dict) ∧ py_err r.2 = Some (PyExc_KeyError, k)
  end.
Proof.
  cbv zeta. unfold igraphmodule_Graph_set_attribute, igraphmodule_Graph_attribute_count.
  destruct (dict !! k) as [v|] eqn:Hk; run.
  - repeat split.
    + apply lookup_delete_eq.
    + intros k' Hne. by apply lookup_delete_ne.
    + rewrite map_size_delete, Hk. cbn.
      assert (size dict ≠ 0%nat); [|lia].
      intros Hz. apply map_size_empty_inv in Hz. by rewrite Hz, lookup_empty in Hk.
  - done.
Qed.

(** ** Cached views *)

(** X20: the vertex sequence of a handle is created on the first access
    and is the object every later access returns, also after structural
    mutators have run on the handle in between; an access changes nothing
    else of the handle.  The same holds for the edge sequence. *)
Theorem views_are_cached {E : NativeEngine}
    (new_vs new_es : Graph → PyObject)
    (self : Graph) (op : structural_op) (args : list PyObject) (w w1 w2 : host) :
  let first := igraphmodule_Graph_get_vertices new_vs self w in
  let mutated := (mutator op first.1.2 args w1).1.2 in
  let second := igraphmodule_Graph_get_vertices new_vs mutated w2 in
  first.1.1 = default (new_vs self) (vseq self)
  ∧ second.1.1 = first.1.1
  ∧ g first.1.2 = g self ∧ destructor first.1.2 = destructor self
  ∧ eseq first.1.2 = eseq self
  ∧ let first := igraphmodule_Graph_get_edges new_es self w in
    let mutated := (mutator op first.1.2 args w1).1.2 in
    let second := igraphmodule_Graph_get_edges new_es mutated w2 in
    first.1.1 = default (new_es self) (eseq self)
    ∧ second.1.1 = first.1.1
    ∧ g first.1.2 = g self ∧ destructor first.1.2 = destructor self
    ∧ vseq first.1.2 = vseq self.
Proof.
  cbv zeta.
  pose proof (mutator_frame op) as Hkeep. cbv zeta in Hkeep.
  unfold igraphmodule_Graph_get_vertices, igraphmodule_Graph_get_edges. run.
  repeat split; try reflexivity.
  - match goal with |- context [mutator op ?h args w1] =>
      destruct (Hkeep h args w1) as (_ & Hv & _ & _) end.
    by rewrite Hv.
  - match goal with |- context [mutator op ?h args w1] =>
      destruct (Hkeep h args w1) as (_ & _ & He & _) end.
    by rewrite He.
Qed.

(** ** A handle that was never initialised *)

(** X21: a handle whose constructor failed is the shell [tp_new] made,
    and deallocating it still releases a native graph, once, although the
    engine never built one. *)
Theorem dealloc_of_failed_init {E : NativeEngine}
    (shell : Graph) (args : list PyObject) (w0 w1 w : host) :
  igraphmodule_Graph_new w0 = (Some shell, w1) →
  (igraphmodule_Graph_init shell args w1).1.1 = -1 →
  let self := (igraphmodule_Graph_init shell args w1).1.2 in
  self = igraphmodule_Graph_init_internal blank
  ∧ events_since w (igraphmodule_Graph_dealloc self w).2
    = [Cleanup fn_igraph_destroy; GC_UnTrack; GC_Del].
Proof.
  intros Hnew Hfail. cbv zeta.
  assert (shell = igraphmodule_Graph_init_internal blank) as Hshell.
  { revert Hnew. unfold igraphmodule_Graph_new, tp_alloc. run.
    destruct (alloc_ok w0); cbn; [by intros [= <- _]|done]. }
  destruct (init_succeeds_or_fails_aux shell args w1) as [(H0 & _)|(_ & -> & _)].
  - rewrite H0 in Hfail. discriminate Hfail.
  - split; [done|]. rewrite dealloc_events. by rewrite Hshell.
Qed.

Lemma dealloc_of_failed_init_witness :
  let self := (igraphmodule_Graph_init (E := Reference.engine)
                 (igraphmodule_Graph_init_internal blank) [PyInt (-1)] host0).1.2 in
  self = igraphmodule_Graph_init_internal blank
  ∧ events_since host0 (igraphmodule_Graph_dealloc self host0).2
    = [Cleanup fn_igraph_destroy; GC_UnTrack; GC_Del].
Proof.
  apply (dealloc_of_failed_init (E := Reference.engine)
           (igraphmodule_Graph_init_internal blank) [PyInt (-1)] host0 host0 host0);
    reflexivity.
Defined.
